(** * Verification of [datasets/voc.py]

    A shallow embedding of the Pascal VOC segmentation dataset adapter:
    the colormap generator [voc_cmap], the archive extractor
    [download_extract] with its nested [is_within_directory] and
    [safe_extract], and the dataset object [VOCSegmentation] with its
    constructor, [__getitem__], [__len__] and [decode_target].

    Conventions.
    - A Python [str] is a Rocq [string]; the character with code [n]
      stands for the code point [U+00nn], so texts are restricted to code
      points below 256.
    - [os.path] is [posixpath].
    - Python integers are [Z]; a [uint8] cell stores its value modulo 256;
      a [float32] cell is a [spec_float] at precision 24, [emax] 128.
    - Effects are threaded through a state-and-exception monad over a
      [World] (file system and log of system calls); the operating system
      and the third-party libraries are the interface [Platform]. *)

From stdpp Require Import gmap strings list pretty.
From Stdlib Require Import ZArith Lia SpecFloat Ascii.

(** ** Python [str] methods *)

Module py_str.

Definition LF : ascii := "010"%char.
Definition DQUOTE : ascii := "034"%char.

(** [s.startswith(p)] *)
Definition startswith (s p : string) : bool := String.prefix p s.

(** [s.endswith(p)] *)
Fixpoint endswith (s p : string) : bool :=
  String.eqb s p ||
  match s with
  | EmptyString => false
  | String _ s' => endswith s' p
  end.

(** [s.split(sep)] for a separator of one character *)
Fixpoint split (sep : ascii) (s : string) : list string :=
  match s with
  | EmptyString => [EmptyString]
  | String c s' =>
      if Ascii.eqb c sep then EmptyString :: split sep s'
      else match split sep s' with
           | h :: t => String c h :: t
           | [] => [String c EmptyString]
           end
  end.

(** [str.isspace] on one character, for code points below 256:
    TAB, LF, VT, FF, CR, FS, GS, RS, US, SPACE, NEL and NBSP. *)
Definition isspace (c : ascii) : bool :=
  let n := nat_of_ascii c in
  ((9 <=? n)%nat && (n <=? 13)%nat) || ((28 <=? n)%nat && (n <=? 32)%nat)
  || (n =? 133)%nat || (n =? 160)%nat.

Fixpoint lstrip_by (p : ascii -> bool) (s : string) : string :=
  match s with
  | EmptyString => EmptyString
  | String c s' => if p c then lstrip_by p s' else s
  end.

Fixpoint rstrip_by (p : ascii -> bool) (s : string) : string :=
  match s with
  | EmptyString => EmptyString
  | String c s' =>
      let r := rstrip_by p s' in
      if p c && String.eqb r EmptyString then EmptyString else String c r
  end.

(** [s.strip()] *)
Definition strip (s : string) : string := lstrip_by isspace (rstrip_by isspace s).

(** [s.rstrip(chars)] for [chars] of one character *)
Definition rstrip (s : string) (c : ascii) : string := rstrip_by (Ascii.eqb c) s.

End py_str.

(** ** [os.path] (POSIX flavour) *)

Module os_path.
Import py_str.

Definition sep : ascii := "/"%char.

Definition isabs (s : string) : bool := startswith s "/".

(** [os.path.join(a, b)] *)
Definition join (a b : string) : string :=
  if startswith b "/" then b
  else if String.eqb a "" || endswith a "/" then a +:+ b
  else a +:+ "/" +:+ b.

Definition is_nil {A} (l : list A) : bool :=
  match l with [] => true | _ => false end.

Definition last_is (l : list string) (s : string) : bool :=
  match last l with Some x => String.eqb x s | None => false end.

(** One iteration of the component loop of [normpath];
    [initial_slashes] is 0, 1 or 2. *)
Definition normpath_step (initial_slashes : nat)
    (new_comps : list string) (comp : string) : list string :=
  if String.eqb comp "" || String.eqb comp "." then new_comps
  else if negb (String.eqb comp "..")
          || ((initial_slashes =? 0)%nat && is_nil new_comps)
          || (negb (is_nil new_comps) && last_is new_comps "..")
       then new_comps ++ [comp]
  else if negb (is_nil new_comps) then removelast new_comps
  else new_comps.

Definition normpath (path : string) : string :=
  if String.eqb path "" then "." else
  let initial_slashes :=
    if startswith path "/" then
      if startswith path "//" && negb (startswith path "///") then 2 else 1
    else 0 in
  let comps := split sep path in
  let new_comps := foldl (normpath_step initial_slashes) [] comps in
  let path := String.concat "/" new_comps in
  let path :=
    match initial_slashes with
    | 0 => path
    | 1 => "/" +:+ path
    | _ => "//" +:+ path
    end in
  if String.eqb path "" then "." else path.

(** [os.path.abspath(path)] in a process whose working directory is
    [cwd] *)
Definition abspath (cwd path : string) : string :=
  normpath (if isabs path then path else join cwd path).

(** [min] and [max] of Python keep the first of equal elements. *)
Definition str_min (a b : string) : string := if String.ltb b a then b else a.
Definition str_max (a b : string) : string := if String.ltb a b then b else a.

(** The loop [for i, c in enumerate(s1): if c != s2[i]: return s1[:i]]
    followed by [return s1].  [s2[i]] is in range because [s1 <= s2]. *)
Fixpoint common_loop (s1 s2 : string) : string :=
  match s1, s2 with
  | String c1 s1', String c2 s2' =>
      if Ascii.eqb c1 c2 then String c1 (common_loop s1' s2') else EmptyString
  | _, _ => EmptyString
  end.

(** [os.path.commonprefix(m)] *)
Definition commonprefix (m : list string) : string :=
  match m with
  | [] => EmptyString
  | x :: xs => common_loop (foldl str_min x xs) (foldl str_max x xs)
  end.

(** Path-segment view of a path, used by specifications only: the
    non-empty components between separators. *)
Definition segments (p : string) : list string :=
  filter (fun c => c <> EmptyString) (split sep p).

End os_path.

Import py_str os_path.

(** ** Exceptions and results *)

(** The exceptions the module raises itself, by Python class, and
    [Foreign] for an exception raised inside a collaborator (downloader,
    [tarfile], the image library, a caller's transform), which the module
    never catches. *)
Inductive exn :=
| KeyError (key : string)
| RuntimeError (msg : string)
| AssertionError (msg : string)
| ValueError (msg : string)
| IndexError (msg : string)
| Exception (msg : string)
| Foreign (cls msg : string).

Inductive result (A : Type) :=
| Ok (a : A)
| Raise (e : exn).
Arguments Ok {A} a.
Arguments Raise {A} e.

(** ** The colormap generator *)

Module np.

Inductive dtype := uint8 | float32 | float64.

Inductive scalar :=
| U8 (z : Z)
| F32 (x : spec_float)
| F64 (x : spec_float).

Definition row : Type := scalar * scalar * scalar.

(** An array of shape [(N, 3)]. *)
Record ndarray := mk_ndarray { nd_dtype : dtype; nd_rows : list row }.

Definition f32_of_Z (z : Z) : spec_float := binary_normalize 24 128 z 0 false.
Definition f64_of_Z (z : Z) : spec_float := binary_normalize 53 1024 z 0 false.
Definition f32_div : spec_float -> spec_float -> spec_float := SFdiv 24 128.
Definition f64_div : spec_float -> spec_float -> spec_float := SFdiv 53 1024.

(** Conversion of a Python integer on assignment into a cell. *)
Definition cast (dt : dtype) (z : Z) : scalar :=
  match dt with
  | uint8 => U8 (z mod 256)
  | float32 => F32 (f32_of_Z z)
  | float64 => F64 (f64_of_Z z)
  end.

Definition cast_row (dt : dtype) (rgb : Z * Z * Z) : row :=
  let '(r, g, b) := rgb in (cast dt r, cast dt g, cast dt b).

(** [np.zeros((N, 3), dtype=dt)] *)
Definition zeros (N : Z) (dt : dtype) : result ndarray :=
  if (N <? 0)%Z then Raise (ValueError "negative dimensions are not allowed")
  else Ok (mk_ndarray dt (replicate (Z.to_nat N) (cast_row dt (0, 0, 0)%Z))).

(** [a[i] = np.array([r, g, b])] for [0 <= i < len(a)] *)
Definition setrow (a : ndarray) (i : Z) (rgb : Z * Z * Z) : ndarray :=
  mk_ndarray (nd_dtype a) (<[Z.to_nat i := cast_row (nd_dtype a) rgb]> (nd_rows a)).

(** [x / k] for a cell [x] and a Python integer [k]: true division, in
    single precision for a [float32] cell, in double precision
    otherwise. *)
Definition scalar_div (x : scalar) (k : Z) : scalar :=
  match x with
  | U8 z => F64 (f64_div (f64_of_Z z) (f64_of_Z k))
  | F32 f => F32 (f32_div f (f32_of_Z k))
  | F64 f => F64 (f64_div f (f64_of_Z k))
  end.

Definition row_map (f : scalar -> scalar) (r : row) : row :=
  let '(x, y, z) := r in (f x, f y, f z).

(** [a / k] *)
Definition div (a : ndarray) (k : Z) : ndarray :=
  mk_ndarray
    (match nd_dtype a with float32 => float32 | _ => float64 end)
    (map (row_map (fun x => scalar_div x k)) (nd_rows a)).

(** An integer array of any shape and of any integer type up to 64 bits,
    signed or unsigned: its shape and its elements in row-major order. *)
Record iarray := mk_iarray { ia_shape : list nat; ia_data : list Z }.

(** An array of shape [px_shape + (3,)]: one row per element of an index
    array, in row-major order. *)
Record rgb_array := mk_rgb_array {
  px_dtype : dtype;
  px_shape : list nat;
  px_rows : list row;
}.

Definition out_of_bounds (m n : Z) : exn :=
  IndexError ("index " +:+ pretty m +:+ " is out of bounds for axis 0 with size "
              +:+ pretty n).

(** The cast of an integer of an index array to [int64], the type numpy
    indexes with: the value is kept modulo [2^64], so that an unsigned
    element from [2^63] on becomes negative. *)
Definition to_int64 (m : Z) : Z := ((m + 2 ^ 63) mod 2 ^ 64 - 2 ^ 63)%Z.

(** [a[m]] for one integer [m] of an index array: the index is cast to
    [int64], and a negative index counts from the end. *)
Definition index_row (a : ndarray) (m : Z) : result row :=
  let n := Z.of_nat (length (nd_rows a)) in
  let i := to_int64 m in
  if ((i <? - n) || (n <=? i))%Z then Raise (out_of_bounds i n)
  else match nd_rows a !! Z.to_nat (if (i <? 0)%Z then i + n else i)%Z with
       | Some r => Ok r
       | None => Raise (out_of_bounds i n)
       end.

(** The rows picked by the indices, in order; the first index out of
    bounds raises. *)
Fixpoint index_rows (a : ndarray) (ms : list Z) : result (list row) :=
  match ms with
  | [] => Ok []
  | m :: ms' =>
      match index_row a m with
      | Raise e => Raise e
      | Ok r =>
          match index_rows a ms' with
          | Raise e => Raise e
          | Ok rs => Ok (r :: rs)
          end
      end
  end.

(** [a[mask]] for an integer array [mask] *)
Definition getitem_array (a : ndarray) (mask : iarray) : result rgb_array :=
  match index_rows a (ia_data mask) with
  | Raise e => Raise e
  | Ok rs => Ok (mk_rgb_array (nd_dtype a) (ia_shape mask) rs)
  end.

End np.

(** [bitget] of [voc_cmap] *)
Definition bitget (byteval idx : Z) : bool :=
  negb (Z.land byteval (Z.shiftl 1 idx) =? 0)%Z.

(** The body of [for j in range(8)]; the state is [(r, g, b, c)]. *)
Definition cmap_step (st : Z * Z * Z * Z) (j : Z) : Z * Z * Z * Z :=
  let '(r, g, b, c) := st in
  let r := Z.lor r (Z.shiftl (Z.b2z (bitget c 0)) (7 - j)) in
  let g := Z.lor g (Z.shiftl (Z.b2z (bitget c 1)) (7 - j)) in
  let b := Z.lor b (Z.shiftl (Z.b2z (bitget c 2)) (7 - j)) in
  let c := Z.shiftr c 3 in
  (r, g, b, c).

(** The triple [(r, g, b)] at the end of the inner loop for index [i]. *)
Definition cmap_color (i : Z) : Z * Z * Z :=
  let '(r, g, b, _) := foldl cmap_step (0, 0, 0, i)%Z (seqZ 0 8) in (r, g, b).

Definition voc_cmap (N : Z) (normalized : bool) : result np.ndarray :=
  let dtype := if normalized then np.float32 else np.uint8 in
  match np.zeros N dtype with
  | Raise e => Raise e
  | Ok cmap =>
      let cmap := foldl (fun cmap i => np.setrow cmap i (cmap_color i)) cmap (seqZ 0 N) in
      let cmap := if normalized then np.div cmap 255 else cmap in
      Ok cmap
  end.

(** ** The environment: operating system and libraries *)

Module tarfile.
(** A member of an archive; the module reads its declared name only. *)
Record TarInfo := mk_TarInfo { name : string }.
(** An opened archive. *)
Record TarFile := mk_TarFile { getmembers : list TarInfo }.
End tarfile.

(** What a collaborator returns: a value, or an exception of some class. *)
Inductive outcome (A : Type) :=
| Done (a : A)
| Failed (cls msg : string).
Arguments Done {A} a.
Arguments Failed {A} cls msg.

Class Platform := {
  FS : Type;
  Image : Type;
  (** [os.getcwd()] and [os.path.expanduser], fixed during a run *)
  getcwd : string;
  expanduser : string -> string;
  (** [os.path.isdir], [os.path.exists] *)
  isdir : FS -> string -> bool;
  exists_ : FS -> string -> bool;
  (** [open(p, "r")] followed by [readlines()] *)
  readlines : FS -> string -> outcome (list string);
  (** [torchvision.datasets.utils.download_url(url, root, filename, md5)] *)
  download_url : string -> string -> string -> string -> FS -> outcome unit * FS;
  (** [tarfile.open(p, "r")] *)
  tarfile_open : FS -> string -> outcome tarfile.TarFile;
  (** [tar.extractall(path, members, numeric_owner=...)] *)
  extractall : tarfile.TarFile -> string -> option (list tarfile.TarInfo) -> bool ->
               FS -> outcome unit * FS;
  (** [PIL.Image.open], [Image.convert] *)
  Image_open : FS -> string -> outcome Image;
  Image_convert : Image -> string -> outcome Image;
}.

(** Calls that reach the operating system or the network, in the order
    they are made. *)
Inductive syscall :=
| SysIsDir (p : string)
| SysExists (p : string)
| SysReadLines (p : string)
| SysDownload (url root filename md5 : string)
| SysTarOpen (p : string)
| SysExtractAll (path : string)
| SysImageOpen (p : string).

Section Effects.
Context `{P : Platform}.

Record World := mk_World { w_fs : FS; w_log : list syscall }.

Definition M (A : Type) : Type := World -> result A * World.

Definition ret {A} (a : A) : M A := fun w => (Ok a, w).
Definition raise {A} (e : exn) : M A := fun w => (Raise e, w).
Definition bind {A B} (m : M A) (k : A -> M B) : M B :=
  fun w => match m w with
           | (Ok a, w') => k a w'
           | (Raise e, w') => (Raise e, w')
           end.

Definition lift {A} (o : outcome A) : result A :=
  match o with Done a => Ok a | Failed c m => Raise (Foreign c m) end.

Definition logged (ev : syscall) (w : World) : World :=
  mk_World (w_fs w) (w_log w ++ [ev]).

(** A call into a library that touches nothing outside its arguments. *)
Definition call {A} (o : outcome A) : M A := fun w => (lift o, w).

(** A call that reads the file system. *)
Definition sys_read {A} (ev : syscall) (f : FS -> outcome A) : M A :=
  fun w => (lift (f (w_fs w)), logged ev w).

(** A call that may change the file system. *)
Definition sys_write {A} (ev : syscall) (f : FS -> outcome A * FS) : M A :=
  fun w => let '(o, fs') := f (w_fs w) in
           (lift o, mk_World fs' (w_log w ++ [ev])).

End Effects.

#[global] Instance M_ret `{P : Platform} : MRet M := @ret P.
#[global] Instance M_bind `{P : Platform} : MBind M := fun A B k m => bind m k.

Section Python.
Context `{P : Platform}.

(** [for x in l: body(x)] *)
Fixpoint for_ {A} (l : list A) (body : A -> M unit) : M unit :=
  match l with
  | [] => ret tt
  | x :: l' => body x ;; for_ l' body
  end.

(** [assert cond, msg] *)
Definition assert_ (cond : bool) (msg : string) : M unit :=
  if cond then ret tt else raise (AssertionError msg).

(** [d[k]] on a dict *)
Definition dict_getitem {V} (d : gmap string V) (k : string) : M V :=
  match d !! k with
  | Some v => ret v
  | None => raise (KeyError k)
  end.

(** [l[i]] on a list: a negative index counts from the end. *)
Definition list_getitem {A} (l : list A) (i : Z) : M A :=
  let n := Z.of_nat (length l) in
  let k := if (i <? 0)%Z then (i + n)%Z else i in
  if ((k <? 0) || (n <=? k))%Z then raise (IndexError "list index out of range")
  else match l !! Z.to_nat k with
       | Some x => ret x
       | None => raise (IndexError "list index out of range")
       end.

End Python.

(** ** Download and extraction *)

Section DownloadExtract.
Context `{P : Platform}.

Definition is_within_directory (directory target : string) : bool :=
  let abs_directory := abspath getcwd directory in
  let abs_target := abspath getcwd target in
  let prefix := commonprefix [abs_directory; abs_target] in
  String.eqb prefix abs_directory.

Definition safe_extract (tar : tarfile.TarFile) (path : string)
    (members : option (list tarfile.TarInfo)) (numeric_owner : bool) : M unit :=
  for_ (tarfile.getmembers tar) (fun member =>
    let member_path := join path (tarfile.name member) in
    if negb (is_within_directory path member_path)
    then raise (Exception "Attempted Path Traversal in Tar File")
    else ret tt) ;;
  sys_write (SysExtractAll path) (extractall tar path members numeric_owner).

Definition download_extract (url root filename md5 : string) : M unit :=
  sys_write (SysDownload url root filename md5) (download_url url root filename md5) ;;
  tar ← sys_read (SysTarOpen (join root filename))
                 (fun fs => tarfile_open fs (join root filename));
  safe_extract tar root None false.

End DownloadExtract.

(** ** The dataset object *)

Record Descriptor := mk_Descriptor {
  d_url : string;
  d_filename : string;
  d_md5 : string;
  d_base_dir : string;
}.

Definition DATASET_YEAR_DICT : gmap string Descriptor :=
  <["2012" := mk_Descriptor
      "http://host.robots.ox.ac.uk/pascal/VOC/voc2012/VOCtrainval_11-May-2012.tar"
      "VOCtrainval_11-May-2012.tar"
      "6cd6e144f989b92b3379bac3b3de84fd"
      "VOCdevkit/VOC2012"]>
  (<["2011" := mk_Descriptor
      "http://host.robots.ox.ac.uk/pascal/VOC/voc2011/VOCtrainval_25-May-2011.tar"
      "VOCtrainval_25-May-2011.tar"
      "6c3384ef61512963050cb5d687e5bf1e"
      "TrainVal/VOCdevkit/VOC2011"]>
  (<["2010" := mk_Descriptor
      "http://host.robots.ox.ac.uk/pascal/VOC/voc2010/VOCtrainval_03-May-2010.tar"
      "VOCtrainval_03-May-2010.tar"
      "da459979d0c395079b5c75ee67908abb"
      "VOCdevkit/VOC2010"]>
  (<["2009" := mk_Descriptor
      "http://host.robots.ox.ac.uk/pascal/VOC/voc2009/VOCtrainval_11-May-2009.tar"
      "VOCtrainval_11-May-2009.tar"
      "59065e4b188729180974ef6572f6a212"
      "VOCdevkit/VOC2009"]>
  (<["2008" := mk_Descriptor
      "http://host.robots.ox.ac.uk/pascal/VOC/voc2008/VOCtrainval_14-Jul-2008.tar"
      "VOCtrainval_11-May-2012.tar"
      "2629fa636546599198acfcfbfcf1904a"
      "VOCdevkit/VOC2008"]>
  (<["2007" := mk_Descriptor
      "http://host.robots.ox.ac.uk/pascal/VOC/voc2007/VOCtrainval_06-Nov-2007.tar"
      "VOCtrainval_06-Nov-2007.tar"
      "c52e279531787c972589f7e41ab4ae64"
      "VOCdevkit/VOC2007"]> ∅))))).

Definition quoted (s : string) : string :=
  String DQUOTE (s +:+ String DQUOTE EmptyString).

Definition msg_dataset_not_found : string :=
  "Dataset not found or corrupted." +:+ " You can use download=True to download it".

Definition msg_aug_not_found : string :=
  "SegmentationClassAug not found, please refer to README.md and prepare it manually".

Definition msg_wrong_image_set : string :=
  "Wrong image_set entered! Please use image_set=" +:+ quoted "train" +:+ " "
  +:+ "or image_set=" +:+ quoted "trainval" +:+ " or image_set=" +:+ quoted "val".

Module VOCSegmentation.
Section with_platform.
Context `{P : Platform}.

Definition Transform : Type := Image -> Image -> outcome (Image * Image).

Record t := mk {
  root : string;
  year : string;
  url : string;
  filename : string;
  md5 : string;
  transform : option Transform;
  image_set : string;
  images : list string;
  masks : list string;
}.

(** Lines 121 to 134 of the constructor: the mask directory and the
    manifest file. *)
Definition select_split (is_aug : bool) (image_set self_root voc_root : string)
    : M (string * string) :=
  if is_aug && String.eqb image_set "train" then
    let mask_dir := join voc_root "SegmentationClassAug" in
    e ← sys_read (SysExists mask_dir) (fun fs => Done (exists_ fs mask_dir));
    assert_ e msg_aug_not_found ;;
    let split_f := join self_root "train_aug.txt" in
    ret (mask_dir, split_f)
  else
    let mask_dir := join voc_root "SegmentationClass" in
    let splits_dir := join voc_root "ImageSets/Segmentation" in
    let split_f := join splits_dir (rstrip image_set LF +:+ ".txt") in
    ret (mask_dir, split_f).

Definition __init__ (root year image_set : string) (download : bool)
    (transform : option Transform) : M t :=
  let is_aug := String.eqb year "2012_aug" in
  let year := if is_aug then "2012" else year in
  let self_root := expanduser root in
  d ← dict_getitem DATASET_YEAR_DICT year;
  let self_url := d_url d in
  d ← dict_getitem DATASET_YEAR_DICT year;
  let self_filename := d_filename d in
  d ← dict_getitem DATASET_YEAR_DICT year;
  let self_md5 := d_md5 d in
  d ← dict_getitem DATASET_YEAR_DICT year;
  let base_dir := d_base_dir d in
  let voc_root := join self_root base_dir in
  let image_dir := join voc_root "JPEGImages" in
  (if download then download_extract self_url self_root self_filename self_md5
   else ret tt) ;;
  b ← sys_read (SysIsDir voc_root) (fun fs => Done (isdir fs voc_root));
  if negb b then raise (RuntimeError msg_dataset_not_found) else
  '(mask_dir, split_f) ← select_split is_aug image_set self_root voc_root;
  e ← sys_read (SysExists split_f) (fun fs => Done (exists_ fs split_f));
  if negb e then raise (ValueError msg_wrong_image_set) else
  lines ← sys_read (SysReadLines split_f) (fun fs => readlines fs split_f);
  let file_names := map strip lines in
  let images := map (fun x => join image_dir (x +:+ ".jpg")) file_names in
  let masks := map (fun x => join mask_dir (x +:+ ".png")) file_names in
  assert_ (length images =? length masks)%nat "" ;;
  ret (mk self_root year self_url self_filename self_md5 transform image_set
          images masks).

Definition __getitem__ (self : t) (index : Z) : M (Image * Image) :=
  p ← list_getitem (images self) index;
  im ← sys_read (SysImageOpen p) (fun fs => Image_open fs p);
  img ← call (Image_convert im "RGB");
  p ← list_getitem (masks self) index;
  target ← sys_read (SysImageOpen p) (fun fs => Image_open fs p);
  match transform self with
  | Some f => call (f img target)
  | None => ret (img, target)
  end.

Definition __len__ (self : t) : Z := Z.of_nat (length (images self)).

End with_platform.

(** The class attribute [cmap = voc_cmap()] *)
Definition cmap : result np.ndarray := voc_cmap 256 false.

(** [decode_target(cls, mask)] for an integer array [mask] *)
Definition decode_target (mask : np.iarray) : result np.rgb_array :=
  match cmap with
  | Raise e => Raise e
  | Ok cmap => np.getitem_array cmap mask
  end.
End VOCSegmentation.

(** ** Specification-side definitions *)

(** Containment by path segments, in the words of the specification: both
    paths are made absolute and the segments of the root are an initial
    part of the segments of the target. *)
Definition within_by_segments `{P : Platform} (directory target : string) : bool :=
  bool_decide (segments (abspath getcwd directory)
               `prefix_of` segments (abspath getcwd target)).

(** The check of [safe_extract] on one member, and on all of them. *)
Definition member_ok `{P : Platform} (path : string) (member : tarfile.TarInfo) : bool :=
  is_within_directory path (join path (tarfile.name member)).

Definition path_traversal : exn := Exception "Attempted Path Traversal in Tar File".


(** The bit-interleave algorithm in the words of the specification:
    starting at [j], for [n] rounds, OR bit 0 of [c] shifted left by
    [7 - j] into [r], bit 1 into [g], bit 2 into [b], then shift [c] right
    by 3. *)
Fixpoint interleave (n : nat) (j r g b c : Z) : Z * Z * Z :=
  match n with
  | O => (r, g, b)
  | S n' =>
      interleave n' (j + 1)
        (Z.lor r (Z.shiftl (Z.b2z (Z.testbit c 0)) (7 - j)))
        (Z.lor g (Z.shiftl (Z.b2z (Z.testbit c 1)) (7 - j)))
        (Z.lor b (Z.shiftl (Z.b2z (Z.testbit c 2)) (7 - j)))
        (Z.shiftr c 3)
  end.

Definition reference_color (i : Z) : Z * Z * Z := interleave 8 0 0 0 0 i.

Definition byte_range (z : Z) : Prop := (0 <= z <= 255)%Z.

(** A colour as a row of [uint8] cells holding the integers themselves. *)
Definition u8_row (rgb : Z * Z * Z) : np.row :=
  let '(r, g, b) := rgb in (np.U8 r, np.U8 g, np.U8 b).

(** A colour divided by 255, channel by channel, in single precision. *)
Definition f32_row_div255 (rgb : Z * Z * Z) : np.row :=
  let '(r, g, b) := rgb in
  (np.F32 (np.f32_div (np.f32_of_Z r) (np.f32_of_Z 255)),
   np.F32 (np.f32_div (np.f32_of_Z g) (np.f32_of_Z 255)),
   np.F32 (np.f32_div (np.f32_of_Z b) (np.f32_of_Z 255))).

(** Row [b] is row [a], a row of bytes, divided by 255 cell by cell. *)
Definition normalized_row (a b : np.row) : Prop :=
  exists rgb : Z * Z * Z,
    (let '(r, g, b') := rgb in byte_range r /\ byte_range g /\ byte_range b')
    /\ a = u8_row rgb /\ b = f32_row_div255 rgb.

(** [x] is a non-negative finite single-precision number within [2^-25]
    (half a unit in the last place at 1) of the ratio [num / den]. *)
Definition f32_near_ratio (x : spec_float) (num den : Z) : bool :=
  match x with
  | S754_zero _ => (num =? 0)%Z
  | S754_finite false m e =>
      let s := (2 ^ (- e))%Z in
      ((e <=? 0) && (Z.abs (Z.pos m * den - num * s) * 2 ^ 25 <=? den * s))%Z
  | _ => false
  end.

(** [x] is a single-precision number of the interval [0, 1]. *)
Definition f32_unit_interval (x : spec_float) : bool :=
  SFleb (S754_zero false) x && SFleb x (np.f32_of_Z 1).

(** A cell holding a single-precision number of [0, 1]. *)
Definition unit_cell (c : np.scalar) : Prop :=
  exists x, c = np.F32 x /\ f32_unit_interval x = true.

Definition unit_row (r : np.row) : Prop :=
  let '(x, y, z) := r in unit_cell x /\ unit_cell y /\ unit_cell z.

(** The bytes, and the single-precision quotient of a byte by 255. *)
Definition bytes : list Z := seqZ 0 256.

Definition f32_div255 (v : Z) : spec_float :=
  np.f32_div (np.f32_of_Z v) (np.f32_of_Z 255).

(** What [decode_target] gives for an element [m] of the mask that is in
    bounds. *)
Definition decoded (m : Z) : np.row := u8_row (cmap_color (m mod 256)).

Definition index_error : exn := IndexError "list index out of range".

Definition negative_dimensions : exn := ValueError "negative dimensions are not allowed".

(** The pieces of the constructor's path computation, named for use in
    statements. *)
Section Layout.
Context `{P : Platform}.

(** The key under which the descriptor table is consulted. *)
Definition table_year (year : string) : string :=
  if String.eqb year "2012_aug" then "2012" else year.

(** The augmented-train variant. *)
Definition aug_train (year image_set : string) : bool :=
  String.eqb year "2012_aug" && String.eqb image_set "train".

Definition voc_root_of (root : string) (d : Descriptor) : string :=
  join (expanduser root) (d_base_dir d).

Definition mask_dir_of (root : string) (d : Descriptor) (year image_set : string) : string :=
  if aug_train year image_set
  then join (voc_root_of root d) "SegmentationClassAug"
  else join (voc_root_of root d) "SegmentationClass".

Definition split_f_of (root : string) (d : Descriptor) (year image_set : string) : string :=
  if aug_train year image_set
  then join (expanduser root) "train_aug.txt"
  else join (join (voc_root_of root d) "ImageSets/Segmentation")
            (rstrip image_set LF +:+ ".txt").

(** The optional download of the constructor. *)
Definition download_step (download : bool) (root : string) (d : Descriptor) : M unit :=
  if download
  then download_extract (d_url d) (expanduser root) (d_filename d) (d_md5 d)
  else ret tt.

(** The system calls of a construction that gets as far as reading the
    manifest, after the download step. *)
Definition init_calls (root : string) (d : Descriptor) (year image_set : string)
    : list syscall :=
  [SysIsDir (voc_root_of root d)]
  ++ (if aug_train year image_set
      then [SysExists (mask_dir_of root d year image_set)] else [])
  ++ [SysExists (split_f_of root d year image_set);
      SysReadLines (split_f_of root d year image_set)].

End Layout.

(** Calls that only ask the file system a question. *)
Definition is_query (c : syscall) : bool :=
  match c with
  | SysIsDir _ | SysExists _ | SysReadLines _ => true
  | _ => false
  end.

Definition is_image_open (c : syscall) : bool :=
  match c with SysImageOpen _ => true | _ => false end.

(** ** A small concrete platform

    A file system keyed by the path string handed to the call, a
    downloader that finds the archive already in place, and an extractor
    that creates an empty file at the normalised path of each member.
    Used to run the model on concrete inputs. *)

Module Demo.

Inductive node :=
| Dir
| File (lines : list string)
| Archive (members : list string).

(** The file system: the first entry for a path is the current one. *)
Definition files : Type := list (string * node).

Fixpoint find (fs : files) (p : string) : option node :=
  match fs with
  | [] => None
  | (q, n) :: fs' => if String.eqb q p then Some n else find fs' p
  end.

Definition read (fs : files) (p : string) : outcome (list string) :=
  match find fs p with
  | Some (File ls) => Done ls
  | Some (Archive _) => Failed "UnicodeDecodeError" p
  | Some Dir => Failed "IsADirectoryError" p
  | None => Failed "FileNotFoundError" p
  end.

Definition open_archive (fs : files) (p : string) : outcome tarfile.TarFile :=
  match find fs p with
  | Some (Archive ms) => Done (tarfile.mk_TarFile (map tarfile.mk_TarInfo ms))
  | Some _ => Failed "ReadError" p
  | None => Failed "FileNotFoundError" p
  end.

Definition extract (tar : tarfile.TarFile) (path : string)
    (members : option (list tarfile.TarInfo)) (numeric_owner : bool)
    (fs : files) : outcome unit * files :=
  (Done tt,
   foldl (fun fs m => (normpath (join path (tarfile.name m)), File []) :: fs) fs
         (default (tarfile.getmembers tar) members)).

Definition open_image (fs : files) (p : string) : outcome string :=
  match find fs p with
  | Some (File _) => Done p
  | _ => Failed "FileNotFoundError" p
  end.

Definition platform : Platform := {|
  FS := files;
  Image := string;
  getcwd := "/";
  expanduser := fun p => p;
  isdir := fun fs p => match find fs p with Some Dir => true | _ => false end;
  exists_ := fun fs p => match find fs p with Some _ => true | None => false end;
  readlines := read;
  download_url := fun _ _ _ _ fs => (Done tt, fs);
  tarfile_open := open_archive;
  extractall := extract;
  Image_open := open_image;
  Image_convert := fun im _ => Done im;
|}.

Definition world (fs : files) : @World platform := @mk_World platform fs [].




(** A 2012 tree whose [val] manifest has three lines: an identifier, an
    absolute path between blanks, and the first identifier again. *)
Definition fs_val : files :=
  [("/data/VOCdevkit/VOC2012", Dir);
   ("/data/VOCdevkit/VOC2012/ImageSets/Segmentation/val.txt",
    File ["2007_000032" +:+ String LF ""; " /abs  " +:+ String LF "";
          "2007_000032" +:+ String LF ""]);
   ("/data/VOCdevkit/VOC2012/JPEGImages/2007_000032.jpg", File []);
   ("/data/VOCdevkit/VOC2012/SegmentationClass/2007_000032.png", File [])].

(** What constructing the [val] split of 2012 over [fs_val] gives. *)
Definition val_self : @VOCSegmentation.t platform :=
  VOCSegmentation.mk "/data" "2012"
    "http://host.robots.ox.ac.uk/pascal/VOC/voc2012/VOCtrainval_11-May-2012.tar"
    "VOCtrainval_11-May-2012.tar" "6cd6e144f989b92b3379bac3b3de84fd" None "val"
    ["/data/VOCdevkit/VOC2012/JPEGImages/2007_000032.jpg"; "/abs.jpg";
     "/data/VOCdevkit/VOC2012/JPEGImages/2007_000032.jpg"]
    ["/data/VOCdevkit/VOC2012/SegmentationClass/2007_000032.png"; "/abs.png";
     "/data/VOCdevkit/VOC2012/SegmentationClass/2007_000032.png"].

Definition val_world : @World platform :=
  @mk_World platform fs_val
    [SysIsDir "/data/VOCdevkit/VOC2012";
     SysExists "/data/VOCdevkit/VOC2012/ImageSets/Segmentation/val.txt";
     SysReadLines "/data/VOCdevkit/VOC2012/ImageSets/Segmentation/val.txt"].

(** A root holding the base directory and nothing else. *)
Definition fs_bare : files := [("/data/VOCdevkit/VOC2012", Dir)].

(** A root holding two archives: a well-formed one and one with a
    member that climbs out of the root. *)
Definition fs_archives : files :=
  [("/data/good.tar", Archive ["VOCdevkit/VOC2012/a.txt"; "VOCdevkit/VOC2012/b.txt"]);
   ("/data/evil.tar", Archive ["VOCdevkit/ok.txt"; "../../escape.txt"])].

(** A root where the archive of 2012 is in place and has a member that
    climbs out of the root. *)
Definition fs_hostile : files :=
  [("/data/VOCtrainval_11-May-2012.tar",
    Archive ["VOCdevkit/VOC2012/a.txt"; "../../escape.txt"])].

End Demo.

(** * Properties *)

(** ** Strings and paths *)

Lemma common_loop_comm (a b : string) : common_loop a b = common_loop b a.
Proof.
  revert b; induction a as [|c a IH]; intros [|d b]; simpl; try reflexivity.
  rewrite (Ascii.eqb_sym d c).
  destruct (Ascii.eqb_spec c d) as [->|]; [by rewrite IH | reflexivity].
Qed.

Lemma common_loop_prefix (a b : string) :
  common_loop a b = a <-> String.prefix a b = true.
Proof.
  revert b; induction a as [|c a IH]; intros [|d b]; simpl; try (split; congruence).
  destruct (ascii_dec c d) as [E|E]; destruct (Ascii.eqb_spec c d) as [E'|E'];
    try congruence.
  - rewrite <- IH. split; congruence.
  - split; congruence.
Qed.

Lemma prefix_not_gt (a b : string) :
  String.prefix a b = true -> String.ltb b a = false.
Proof.
  unfold String.ltb. revert b; induction a as [|c a IH]; intros [|d b]; simpl;
    try congruence.
  destruct (ascii_dec c d) as [->|]; [|congruence].
  intros H. specialize (IH _ H).
  replace (d ?= d)%char with Eq; [exact IH|].
  symmetry. unfold Ascii.compare. apply N.compare_refl.
Qed.

Lemma ltb_false_eq (a b : string) :
  String.ltb a b = false -> String.ltb b a = false -> a = b.
Proof.
  unfold String.ltb. rewrite (String.compare_antisym b a).
  destruct (a ?= b)%string eqn:E; simpl; try congruence.
  intros _ _. by apply String.compare_eq_iff.
Qed.

Lemma ltb_asym (a b : string) : String.ltb b a = true -> String.ltb a b = false.
Proof.
  unfold String.ltb. rewrite (String.compare_antisym b a).
  by destruct (a ?= b)%string.
Qed.

Lemma prefix_refl (a : string) : String.prefix a a = true.
Proof.
  induction a as [|c a IH]; simpl; [reflexivity|].
  destruct (ascii_dec c c); [exact IH | congruence].
Qed.

(** [commonprefix] of two strings gives back the first one exactly when
    the first is a prefix, character by character, of the second. *)
Lemma commonprefix_eq_prefix (a b : string) :
  String.eqb (commonprefix [a; b]) a = String.prefix a b.
Proof.
  unfold commonprefix; simpl. unfold str_min, str_max.
  destruct (String.ltb b a) eqn:Hba.
  - rewrite (ltb_asym _ _ Hba), common_loop_comm.
    destruct (String.prefix a b) eqn:Hp.
    + apply prefix_not_gt in Hp. congruence.
    + apply String.eqb_neq. rewrite common_loop_prefix. congruence.
  - destruct (String.ltb a b) eqn:Hab.
    + destruct (String.prefix a b) eqn:Hp.
      * apply String.eqb_eq. by apply common_loop_prefix.
      * apply String.eqb_neq. rewrite common_loop_prefix. congruence.
    + rewrite <- (ltb_false_eq _ _ Hab Hba), prefix_refl.
      apply String.eqb_eq, common_loop_prefix, prefix_refl.
Qed.

(** ** The archive extractor *)

Section ExtractProperties.
Context `{P : Platform}.

(** The check is a comparison of characters, not of path segments. *)
Lemma is_within_directory_prefix (directory target : string) :
  is_within_directory directory target
  = String.prefix (abspath getcwd directory) (abspath getcwd target).
Proof. unfold is_within_directory. apply commonprefix_eq_prefix. Qed.

(** The validation loop either passes over every member without touching
    the world or stops at the first offending member. *)
Lemma check_loop (path : string) (ms : list tarfile.TarInfo) (w : World) :
  for_ ms (fun member =>
    let member_path := join path (tarfile.name member) in
    if negb (is_within_directory path member_path)
    then raise path_traversal else ret tt) w
  = if forallb (member_ok path) ms then (Ok tt, w) else (Raise path_traversal, w).
Proof.
  induction ms as [|m ms IH]; [reflexivity|].
  cbn [for_ forallb]. unfold mbind, M_bind, bind, member_ok at 1.
  destruct (is_within_directory path (join path (tarfile.name m))); cbn.
  - exact IH.
  - reflexivity.
Qed.

Lemma safe_extract_run (tar : tarfile.TarFile) (path : string)
    (members : option (list tarfile.TarInfo)) (numeric_owner : bool) (w : World) :
  safe_extract tar path members numeric_owner w
  = if forallb (member_ok path) (tarfile.getmembers tar)
    then sys_write (SysExtractAll path) (extractall tar path members numeric_owner) w
    else (Raise path_traversal, w).
Proof.
  unfold safe_extract, mbind, M_bind, bind. fold path_traversal.
  rewrite check_loop.
  by destruct (forallb (member_ok path) (tarfile.getmembers tar)).
Qed.





(** C1 (not met by the code): a member is to be accepted only if its
    resolved path lies within the root by path segments. The member
    [../root-evil] under root [/root] resolves to the sibling
    [/root-evil], which is outside [/root] by segments, yet the check
    passes and [safe_extract] goes on to extract. *)
Theorem sibling_directory_accepted
    (members : option (list tarfile.TarInfo)) (numeric_owner : bool) (w : World) :
  let member := tarfile.mk_TarInfo "../root-evil" in
  let tar := tarfile.mk_TarFile [member] in
  abspath getcwd (join "/root" (tarfile.name member)) = "/root-evil"
  /\ within_by_segments "/root" (join "/root" (tarfile.name member)) = false
  /\ is_within_directory "/root" (join "/root" (tarfile.name member)) = true
  /\ safe_extract tar "/root" members numeric_owner w
     = sys_write (SysExtractAll "/root") (extractall tar "/root" members numeric_owner) w.
Proof.
  intros member tar.
  assert (Hin : is_within_directory "/root" (join "/root" (tarfile.name member)) = true)
    by (rewrite is_within_directory_prefix; reflexivity).
  repeat split; try reflexivity; exact Hin.
Qed.

End ExtractProperties.

(** ** The colormap *)

Lemma bitget_testbit (c k : Z) : (0 <= k)%Z -> bitget c k = Z.testbit c k.
Proof.
  intros Hk. unfold bitget. rewrite Z.shiftl_1_l.
  destruct (Z.testbit c k) eqn:Hb.
  - apply negb_true_iff, Z.eqb_neq. intros H0.
    assert (Ht : Z.testbit (Z.land c (2 ^ k)) k = true)
      by (rewrite Z.land_spec, Hb, Z.pow2_bits_true; auto).
    rewrite H0, Z.bits_0 in Ht. discriminate.
  - apply negb_false_iff, Z.eqb_eq, Z.bits_inj'. intros n Hn.
    rewrite Z.land_spec, Z.bits_0, Z.pow2_bits_eqb by assumption.
    destruct (Z.eqb_spec k n) as [->|]; [by rewrite Hb | apply andb_false_r].
Qed.

(** The inner loop of the code is the specification's algorithm. *)
Lemma inner_loop_interleave (n : nat) (j r g b c : Z) :
  (let '(r', g', b', _) := foldl cmap_step (r, g, b, c) (seqZ j (Z.of_nat n)) in
   (r', g', b')) = interleave n j r g b c.
Proof.
  revert j r g b c. induction n as [|n IH]; intros j r g b c; [reflexivity|].
  rewrite seqZ_cons by lia.
  replace (Z.pred (Z.of_nat (S n))) with (Z.of_nat n) by lia.
  cbn [foldl interleave]. unfold cmap_step at 2.
  rewrite !bitget_testbit by lia.
  rewrite IH. by replace (Z.succ j) with (j + 1)%Z by lia.
Qed.

Lemma cmap_color_reference (i : Z) : cmap_color i = reference_color i.
Proof. unfold cmap_color, reference_color. apply (inner_loop_interleave 8). Qed.

Lemma log2_byte (a : Z) : (0 <= a < 256)%Z -> (Z.log2 a < 8)%Z.
Proof.
  intros [H0 H1]. destruct (Z.eq_dec a 0) as [->|]; [reflexivity|].
  apply Z.log2_lt_pow2; lia.
Qed.

Lemma lor_byte (a b : Z) : byte_range a -> byte_range b -> byte_range (Z.lor a b).
Proof.
  unfold byte_range. intros Ha Hb.
  assert (H0 : (0 <= Z.lor a b)%Z) by (apply Z.lor_nonneg; lia).
  split; [exact H0|].
  destruct (Z.eq_dec (Z.lor a b) 0) as [->|Hne]; [lia|].
  assert (Z.lor a b < 2 ^ 8)%Z; [|lia].
  apply Z.log2_lt_pow2; [lia|].
  rewrite Z.log2_lor by lia.
  pose proof (log2_byte a). pose proof (log2_byte b). lia.
Qed.

Lemma bit_shift_byte (x : bool) (j : Z) :
  (0 <= j <= 7)%Z -> byte_range (Z.shiftl (Z.b2z x) (7 - j)).
Proof.
  intros Hj. unfold byte_range. rewrite Z.shiftl_mul_pow2 by lia.
  assert (0 < 2 ^ (7 - j) <= 2 ^ 7)%Z
    by (split; [apply Z.pow_pos_nonneg; lia | apply Z.pow_le_mono_r; lia]).
  change (2 ^ 7)%Z with 128%Z in *. destruct x; simpl Z.b2z; lia.
Qed.

Lemma interleave_byte (n : nat) (j r g b c : Z) :
  (0 <= j)%Z -> (j + Z.of_nat n <= 8)%Z ->
  byte_range r -> byte_range g -> byte_range b ->
  let '(r', g', b') := interleave n j r g b c in
  byte_range r' /\ byte_range g' /\ byte_range b'.
Proof.
  revert j r g b c. induction n as [|n IH]; intros j r g b c Hj Hn Hr Hg Hb.
  - simpl. auto.
  - cbn [interleave]. apply IH; try lia; apply lor_byte; auto;
      apply bit_shift_byte; lia.
Qed.

(** Every channel of every colour is a byte, whatever the index. *)
Lemma cmap_color_byte (i : Z) :
  let '(r, g, b) := cmap_color i in byte_range r /\ byte_range g /\ byte_range b.
Proof.
  rewrite cmap_color_reference. unfold reference_color.
  apply interleave_byte; unfold byte_range; lia.
Qed.

(** The outer loop, row by row: after [m] rounds the first [m] rows hold
    their colours and the others are still zero. *)
Lemma outer_loop_inv (dt : np.dtype) (n m : nat) :
  m <= n ->
  foldl (fun cmap i => np.setrow cmap i (cmap_color i))
        (np.mk_ndarray dt (replicate n (np.cast_row dt (0, 0, 0)%Z)))
        (seqZ 0 (Z.of_nat m))
  = np.mk_ndarray dt
      (map (fun k => np.cast_row dt (cmap_color (Z.of_nat k))) (seq 0 m)
       ++ replicate (n - m) (np.cast_row dt (0, 0, 0)%Z)).
Proof.
  induction m as [|m IH]; intros Hm.
  - cbn. by rewrite Nat.sub_0_r.
  - rewrite seqZ_S, foldl_snoc, IH by lia.
    unfold np.setrow; cbn [np.nd_dtype np.nd_rows]. f_equal.
    replace (Z.to_nat (0 + Z.of_nat m)) with m by lia.
    replace (n - m) with (S (n - S m)) by lia.
    rewrite insert_app_r_alt by (rewrite length_map, length_seq; lia).
    rewrite length_map, length_seq, Nat.sub_diag. cbn [replicate].
    rewrite seq_S, map_app, <- app_assoc. reflexivity.
Qed.

(** [voc_cmap] in closed form. *)
Lemma voc_cmap_run (N : Z) (normalized : bool) :
  voc_cmap N normalized =
  if (N <? 0)%Z then Raise negative_dimensions
  else Ok (np.mk_ndarray
             (if normalized then np.float32 else np.uint8)
             (map (fun k => (if normalized then f32_row_div255 else u8_row)
                              (cmap_color (Z.of_nat k)))
                  (seq 0 (Z.to_nat N)))).
Proof.
  unfold voc_cmap, np.zeros. destruct (N <? 0)%Z eqn:HN; [reflexivity|].
  apply Z.ltb_ge in HN.
  replace (seqZ 0 N) with (seqZ 0 (Z.of_nat (Z.to_nat N))) by (f_equal; lia).
  rewrite outer_loop_inv, Nat.sub_diag, app_nil_r by lia.
  destruct normalized; unfold np.div; cbn [np.nd_dtype np.nd_rows]; f_equal; f_equal.
  - rewrite map_map. apply map_ext. intros k.
    by destruct (cmap_color (Z.of_nat k)) as [[r g] b].
  - apply map_ext. intros k. pose proof (cmap_color_byte (Z.of_nat k)) as Hb.
    destruct (cmap_color (Z.of_nat k)) as [[r g] b].
    unfold byte_range in Hb. cbn.
    by rewrite !Z.mod_small by lia.
Qed.

(** C3: for every size [N] and index [i] with [0 <= i < N], entry [i] of
    the colormap is the triple of the specification's bit-interleave
    algorithm run on [i]; entry 0 is (0, 0, 0) and entry 1 is
    (128, 0, 0). *)
Theorem voc_cmap_entry (N i : Z) :
  (0 <= i < N)%Z ->
  exists cmap,
    voc_cmap N false = Ok cmap
    /\ np.nd_rows cmap !! Z.to_nat i = Some (u8_row (reference_color i))
    /\ (i = 0%Z -> np.nd_rows cmap !! 0%nat = Some (np.U8 0, np.U8 0, np.U8 0))
    /\ (i = 1%Z -> np.nd_rows cmap !! 1%nat = Some (np.U8 128, np.U8 0, np.U8 0)).
Proof.
  intros Hi. rewrite voc_cmap_run.
  destruct (Z.ltb_spec N 0) as [|_]; [lia|].
  eexists; split; [reflexivity|]. cbn [np.nd_rows].
  assert (Hl : forall k : nat, (Z.of_nat k < N)%Z ->
            map (fun k => u8_row (cmap_color (Z.of_nat k))) (seq 0 (Z.to_nat N)) !! k
            = Some (u8_row (reference_color (Z.of_nat k)))).
  { intros k Hk.
    change (map ?f ?l) with (f <$> l).
    rewrite list_lookup_fmap, lookup_seq_lt by lia.
    cbn. by rewrite cmap_color_reference. }
  split; [|split].
  - rewrite Hl by lia. by rewrite Z2Nat.id by lia.
  - intros ->. apply (Hl 0%nat). lia.
  - intros ->. apply (Hl 1%nat). lia.
Qed.

Lemma voc_cmap_entry_witness :
  (0 <= 1 < 256)%Z /\
  exists cmap,
    voc_cmap 256 false = Ok cmap
    /\ np.nd_rows cmap !! Z.to_nat 1 = Some (u8_row (reference_color 1))
    /\ (1%Z = 0%Z -> np.nd_rows cmap !! 0%nat = Some (np.U8 0, np.U8 0, np.U8 0))
    /\ (1%Z = 1%Z -> np.nd_rows cmap !! 1%nat = Some (np.U8 128, np.U8 0, np.U8 0)).
Proof. split; [lia | apply (voc_cmap_entry 256 1); lia]. Defined.

(** C5, as the code has it: the generator returns a table of exactly
    [N] rows for every size [N >= 0], the empty table for size 0, and
    raises [ValueError] for a negative size. *)
Theorem voc_cmap_size (N : Z) (normalized : bool) :
  if (N <? 0)%Z then voc_cmap N normalized = Raise negative_dimensions
  else exists cmap,
         voc_cmap N normalized = Ok cmap
         /\ length (np.nd_rows cmap) = Z.to_nat N
         /\ (N = 0%Z -> np.nd_rows cmap = []).
Proof.
  rewrite voc_cmap_run. destruct (N <? 0)%Z; [reflexivity|].
  eexists; split; [reflexivity|]. cbn [np.nd_rows]. split.
  - by rewrite length_map, length_seq.
  - by intros ->.
Qed.

(** C5 fails for a negative size: no table, empty or not, comes back. *)
Lemma voc_cmap_negative_size_raises :
  voc_cmap (-1) false = Raise negative_dimensions
  /\ ~ (exists cmap, voc_cmap (-1) false = Ok cmap /\ np.nd_rows cmap = []).
Proof. split; [reflexivity|]. intros (cmap & H & _). discriminate H. Qed.

(** The single-precision quotient by 255 of a byte is the ratio, up to
    rounding. *)
Lemma f32_div255_accurate (v : Z) :
  byte_range v ->
  f32_near_ratio (np.f32_div (np.f32_of_Z v) (np.f32_of_Z 255)) v 255 = true.
Proof.
  intros Hv.
  assert (Hall : forallb (fun v => f32_near_ratio
                            (np.f32_div (np.f32_of_Z v) (np.f32_of_Z 255)) v 255)
                         (seqZ 0 256) = true) by (vm_compute; reflexivity).
  rewrite forallb_forall in Hall. apply Hall.
  apply list_elem_of_In, elem_of_seqZ. unfold byte_range in Hv. lia.
Qed.

(** C8: for every size, each row of the table made with
    [normalized=True] is the row of the table made with
    [normalized=False] divided by 255 cell by cell (in single precision,
    the type of the normalized table), and the cells of the latter are
    integers between 0 and 255. For a negative size neither table
    exists. *)
Theorem voc_cmap_normalized (N : Z) :
  if (N <? 0)%Z
  then voc_cmap N false = Raise negative_dimensions
       /\ voc_cmap N true = Raise negative_dimensions
  else exists raw norm,
         voc_cmap N false = Ok raw /\ voc_cmap N true = Ok norm
         /\ np.nd_dtype raw = np.uint8 /\ np.nd_dtype norm = np.float32
         /\ Forall2 normalized_row (np.nd_rows raw) (np.nd_rows norm).
Proof.
  rewrite !voc_cmap_run. destruct (N <? 0)%Z; [by split|].
  do 2 eexists. repeat (split; [reflexivity|]). cbn [np.nd_rows].
  induction (seq 0 (Z.to_nat N)) as [|k l IH]; constructor; [|exact IH].
  exists (cmap_color (Z.of_nat k)). split; [apply cmap_color_byte | by split].
Qed.

(** ** More on paths *)

Lemma endswith_app_sep (a b : string) :
  b <> "" -> endswith (a +:+ b) "/" = endswith b "/".
Proof.
  intros Hb. induction a as [|c a IH]; [reflexivity|].
  change (String c a +:+ b) with (String c (a +:+ b)).
  cbn [endswith]. rewrite IH.
  replace (String.eqb (String c (a +:+ b)) "/") with false; [reflexivity|].
  symmetry. apply String.eqb_neq. intros [= _ H].
  destruct a; [by subst | discriminate].
Qed.

Lemma join_plain (a b : string) :
  a <> "" -> endswith a "/" = false -> startswith b "/" = false ->
  join a b = a +:+ "/" +:+ b.
Proof.
  intros Ha He Hb. unfold join. rewrite Hb, He.
  by apply String.eqb_neq in Ha as ->.
Qed.

(** Joining a relative, non-empty tail leaves a path that ends as the
    tail does. *)
Lemma join_tail (a b : string) :
  startswith b "/" = false -> b <> "" ->
  join a b <> "" /\ endswith (join a b) "/" = endswith b "/".
Proof.
  intros Hb Hne. unfold join. rewrite Hb.
  assert (Happ : forall x y, y <> "" -> x +:+ y <> "")
    by (intros [|c x] y Hy; [exact Hy | discriminate]).
  destruct (String.eqb a "" || endswith a "/").
  - split; [by apply Happ | by apply endswith_app_sep].
  - split; [by apply Happ|].
    rewrite endswith_app_sep by done.
    change ("/" +:+ b) with (String "/" b). cbn [endswith].
    replace (String.eqb (String "/" b) "/") with false; [reflexivity|].
    symmetry. apply String.eqb_neq. congruence.
Qed.

Lemma startswith_sep_app (x s : string) :
  startswith x "/" = false -> startswith s "/" = false ->
  startswith (x +:+ s) "/" = false.
Proof.
  intros Hx Hs. destruct x as [|c x]; [exact Hs|].
  change (String c x +:+ s) with (String c (x +:+ s)).
  unfold startswith in *. cbn [String.prefix] in *.
  destruct (ascii_dec "/" c); [by destruct x | reflexivity].
Qed.

Lemma rstrip_no_trailing (s : string) (c : ascii) :
  endswith s (String c "") = false -> rstrip s c = s.
Proof.
  unfold rstrip. induction s as [|a s IH]; [reflexivity|].
  cbn [endswith rstrip_by]. intros H. apply orb_false_iff in H as [Ha Hs].
  rewrite (IH Hs). destruct s as [|a' s'].
  - cbn in Ha. destruct (Ascii.eqb_spec a c) as [->|Hne]; [discriminate|].
    by apply Ascii.eqb_neq in Hne; rewrite Ascii.eqb_sym, Hne.
  - by rewrite andb_false_r.
Qed.

Lemma append_assoc (a b c : string) : (a +:+ b) +:+ c = a +:+ b +:+ c.
Proof.
  induction a as [|x a IH]; [reflexivity|].
  change ((String x a +:+ b) +:+ c) with (String x ((a +:+ b) +:+ c)).
  by rewrite IH.
Qed.

(** Every base directory of the table is relative, non-empty and without
    a trailing separator. *)
Lemma base_dir_shape (year : string) (d : Descriptor) :
  DATASET_YEAR_DICT !! year = Some d ->
  startswith (d_base_dir d) "/" = false
  /\ d_base_dir d <> ""
  /\ endswith (d_base_dir d) "/" = false.
Proof.
  revert year d. apply map_Forall_lookup. unfold DATASET_YEAR_DICT.
  repeat (apply map_Forall_insert_2; [by repeat split|]).
  apply map_Forall_empty.
Qed.

(** ** The dataset object *)

Lemma lookup_unsupported_year (year : string) :
  year ∉ ["2012"; "2011"; "2010"; "2009"; "2008"; "2007"] ->
  DATASET_YEAR_DICT !! year = None.
Proof.
  intros H. unfold DATASET_YEAR_DICT.
  rewrite !lookup_insert_ne; [apply lookup_empty | ..];
    intros <-; apply H; set_solver.
Qed.

(** Unfolds the monad of effects one layer and simplifies the plumbing. *)
Ltac run_monad :=
  repeat (unfold sys_read, sys_write, call, ret, raise;
          cbn [negb andb lift logged w_fs w_log fst snd]).

Section DatasetProperties.
Context `{P : Platform}.
Import VOCSegmentation.

Lemma select_split_run (year image_set root : string) (d : Descriptor) (w : World) :
  select_split (String.eqb year "2012_aug") image_set (expanduser root)
               (voc_root_of root d) w
  = if aug_train year image_set then
      let w' := logged (SysExists (mask_dir_of root d year image_set)) w in
      if exists_ (w_fs w) (mask_dir_of root d year image_set)
      then (Ok (mask_dir_of root d year image_set, split_f_of root d year image_set), w')
      else (Raise (AssertionError msg_aug_not_found), w')
    else (Ok (mask_dir_of root d year image_set, split_f_of root d year image_set), w).
Proof.
  unfold select_split, mask_dir_of, split_f_of, aug_train.
  destruct (String.eqb year "2012_aug" && String.eqb image_set "train"); [|reflexivity].
  unfold mbind, M_bind, bind, sys_read. cbn.
  by destruct (exists_ (w_fs w) _).
Qed.

(** The constructor, step by step, for a year the table knows. *)
Lemma init_run (root year image_set : string) (download : bool)
    (transform : option Transform) (d : Descriptor) (w : World) :
  DATASET_YEAR_DICT !! table_year year = Some d ->
  __init__ root year image_set download transform w =
  match download_step download root d w with
  | (Raise e, w1) => (Raise e, w1)
  | (Ok _, w1) =>
      let w2 := logged (SysIsDir (voc_root_of root d)) w1 in
      if negb (isdir (w_fs w1) (voc_root_of root d))
      then (Raise (RuntimeError msg_dataset_not_found), w2)
      else
        let mask_dir := mask_dir_of root d year image_set in
        let split_f := split_f_of root d year image_set in
        let w3 := if aug_train year image_set then logged (SysExists mask_dir) w2 else w2 in
        if aug_train year image_set && negb (exists_ (w_fs w1) mask_dir)
        then (Raise (AssertionError msg_aug_not_found), w3)
        else
          let w4 := logged (SysExists split_f) w3 in
          if negb (exists_ (w_fs w1) split_f)
          then (Raise (ValueError msg_wrong_image_set), w4)
          else
            let w5 := logged (SysReadLines split_f) w4 in
            match readlines (w_fs w1) split_f with
            | Failed c m => (Raise (Foreign c m), w5)
            | Done lines =>
                let file_names := map strip lines in
                (Ok (mk (expanduser root) (table_year year) (d_url d) (d_filename d)
                        (d_md5 d) transform image_set
                        (map (fun x => join (join (voc_root_of root d) "JPEGImages")
                                            (x +:+ ".jpg")) file_names)
                        (map (fun x => join mask_dir (x +:+ ".png")) file_names)),
                 w5)
            end
  end.
Proof.
  intros Hd. unfold __init__. fold (table_year year).
  unfold mbind, M_bind, bind, dict_getitem. rewrite Hd. cbn [ret].
  fold (download_step download root d). fold (voc_root_of root d).
  destruct (download_step download root d w) as [[[]|e] w1]; [|reflexivity].
  unfold sys_read at 1. cbn [lift].
  destruct (isdir (w_fs w1) (voc_root_of root d)); [|reflexivity].
  cbn [negb]. rewrite select_split_run.
  destruct (aug_train year image_set); cbn [andb].
  - run_monad.
    destruct (exists_ (w_fs w1) (mask_dir_of root d year image_set)); [|reflexivity].
    run_monad.
    destruct (exists_ (w_fs w1) (split_f_of root d year image_set)); [|reflexivity].
    run_monad. destruct (readlines (w_fs w1) _); [|reflexivity].
    run_monad. rewrite !length_map, Nat.eqb_refl. reflexivity.
  - run_monad.
    destruct (exists_ (w_fs w1) (split_f_of root d year image_set)); [|reflexivity].
    run_monad. destruct (readlines (w_fs w1) _); [|reflexivity].
    run_monad. rewrite !length_map, Nat.eqb_refl. reflexivity.
Qed.

Lemma init_unknown_year (root year image_set : string) (download : bool)
    (transform : option Transform) (w : World) :
  DATASET_YEAR_DICT !! table_year year = None ->
  __init__ root year image_set download transform w
  = (Raise (KeyError (table_year year)), w).
Proof.
  intros Hd. unfold __init__. fold (table_year year).
  unfold mbind, M_bind, bind, dict_getitem. by rewrite Hd.
Qed.

(** C10: a version that is none of the six years of the table and not
    ['2012_aug'] makes the constructor raise [KeyError] for that
    version, with the world as it was: no file-system check, download or
    extraction has been made. *)
Theorem init_unsupported_year (root year image_set : string) (download : bool)
    (transform : option Transform) (w : World) :
  year ∉ ["2012"; "2011"; "2010"; "2009"; "2008"; "2007"] ->
  year <> "2012_aug" ->
  __init__ root year image_set download transform w = (Raise (KeyError year), w).
Proof.
  intros Hy Haug.
  assert (Ht : table_year year = year)
    by (unfold table_year; by apply String.eqb_neq in Haug as ->).
  rewrite <- Ht at 2. apply init_unknown_year.
  rewrite Ht. by apply lookup_unsupported_year.
Qed.

(** What a successful construction has gone through. *)
Lemma init_success (root year image_set : string) (download : bool)
    (transform : option Transform) (w w' : World) (self : t) :
  __init__ root year image_set download transform w = (Ok self, w') ->
  exists d w1 lines,
    DATASET_YEAR_DICT !! table_year year = Some d
    /\ download_step download root d w = (Ok tt, w1)
    /\ isdir (w_fs w1) (voc_root_of root d) = true
    /\ (aug_train year image_set = true ->
        exists_ (w_fs w1) (mask_dir_of root d year image_set) = true)
    /\ exists_ (w_fs w1) (split_f_of root d year image_set) = true
    /\ readlines (w_fs w1) (split_f_of root d year image_set) = Done lines
    /\ w' = mk_World (w_fs w1) (w_log w1 ++ init_calls root d year image_set)
    /\ images self
       = map (fun x => join (join (voc_root_of root d) "JPEGImages") (x +:+ ".jpg"))
             (map strip lines)
    /\ masks self
       = map (fun x => join (mask_dir_of root d year image_set) (x +:+ ".png"))
             (map strip lines).
Proof.
  destruct (DATASET_YEAR_DICT !! table_year year) as [d|] eqn:Hd;
    [|by rewrite init_unknown_year].
  rewrite (init_run _ _ _ _ _ d) by done.
  destruct (download_step download root d w) as [[[]|e] w1] eqn:Hdl; [|done].
  cbn zeta.
  destruct (isdir (w_fs w1) (voc_root_of root d)) eqn:Hdir; [|done]. cbn [negb].
  destruct (aug_train year image_set && negb (exists_ (w_fs w1) _)) eqn:Hm; [done|].
  destruct (exists_ (w_fs w1) (split_f_of root d year image_set)) eqn:Hs; [|done].
  cbn [negb].
  destruct (readlines (w_fs w1) _) as [lines|] eqn:Hr; [|done].
  intros [= <- <-]. exists d, w1, lines.
  repeat split; try done.
  - intros Ha. rewrite Ha in Hm. cbn in Hm. by apply negb_false_iff in Hm.
  - unfold init_calls, logged. destruct (aug_train year image_set); cbn;
      by rewrite <- !app_assoc.
Qed.

(** The directory of one year is a non-empty path without a trailing
    separator, and so is every fixed subdirectory joined to it. *)
Lemma voc_root_shape (root year : string) (d : Descriptor) :
  DATASET_YEAR_DICT !! year = Some d ->
  voc_root_of root d <> "" /\ endswith (voc_root_of root d) "/" = false.
Proof.
  intros Hd. destruct (base_dir_shape _ _ Hd) as (Hs & Hne & He).
  unfold voc_root_of. destruct (join_tail (expanduser root) _ Hs Hne) as [H1 H2].
  split; [exact H1 | by rewrite H2].
Qed.

Lemma subdir_plain (root year sub : string) (d : Descriptor) :
  DATASET_YEAR_DICT !! year = Some d ->
  startswith sub "/" = false -> sub <> "" -> endswith sub "/" = false ->
  join (voc_root_of root d) sub = voc_root_of root d +:+ "/" +:+ sub
  /\ join (voc_root_of root d) sub <> ""
  /\ endswith (join (voc_root_of root d) sub) "/" = false.
Proof.
  intros Hd Hs Hne He. destruct (voc_root_shape root _ _ Hd) as [H1 H2].
  destruct (join_tail (voc_root_of root d) sub Hs Hne) as [H3 H4].
  repeat split; [by apply join_plain | exact H3 | by rewrite H4].
Qed.

(** C6, as the code has it: for a version the table knows and once
    the optional download has completed, the constructor raises the
    dataset-not-found [RuntimeError] exactly when the base directory is
    not a directory, and the invalid-split [ValueError] exactly when
    the base directory is there, the augmented-train variant (if
    selected) finds its mask directory, and the manifest file does not
    exist; the message of the latter names the three splits. The
    exception is the result of the constructor itself. *)
Theorem init_not_found_or_invalid_split (root year image_set : string)
    (download : bool) (transform : option Transform) (d : Descriptor)
    (w w1 : World) :
  DATASET_YEAR_DICT !! table_year year = Some d ->
  download_step download root d w = (Ok tt, w1) ->
  let r := fst (__init__ root year image_set download transform w) in
  (r = Raise (RuntimeError msg_dataset_not_found)
   <-> isdir (w_fs w1) (voc_root_of root d) = false)
  /\ (r = Raise (ValueError msg_wrong_image_set)
      <-> isdir (w_fs w1) (voc_root_of root d) = true
          /\ (aug_train year image_set = true ->
              exists_ (w_fs w1) (mask_dir_of root d year image_set) = true)
          /\ exists_ (w_fs w1) (split_f_of root d year image_set) = false)
  /\ Forall (fun split => is_Some (String.index 0 (quoted split) msg_wrong_image_set))
            ["train"; "trainval"; "val"].
Proof.
  intros Hd Hdl r. subst r. rewrite (init_run _ _ _ _ _ d), Hdl by done. cbn zeta.
  split; [|split].
  - destruct (isdir (w_fs w1) _); cbn [negb fst]; [|done].
    destruct (aug_train year image_set && _); [done|].
    destruct (exists_ (w_fs w1) (split_f_of _ _ _ _)); cbn [negb fst]; [|done].
    by destruct (readlines _ _).
  - destruct (isdir (w_fs w1) _); cbn [negb fst]; [|intuition congruence].
    destruct (aug_train year image_set);
      destruct (exists_ (w_fs w1) (mask_dir_of _ _ _ _));
      destruct (exists_ (w_fs w1) (split_f_of _ _ _ _));
      cbn [negb fst andb]; try destruct (readlines _ _);
      (split; [intros Hr; repeat split; (done || congruence)
              | intros (_ & Hm & He); try specialize (Hm eq_refl); congruence]).
  - repeat constructor; vm_compute; eauto.
Qed.

(** C7, as the code has it: after a successful construction from a
    manifest of [N] lines both path lists have [N] entries and [__len__]
    is [N]; entry [k] of each list is [os.path.join] of the directory
    and the identifier of line [k], trimmed, with its extension, which
    is [<dir>/<id>.jpg] (resp. [.png]) whenever the identifier does not
    begin with a separator. Order and duplicates are those of the
    manifest. *)
Theorem init_builds_samples (root year image_set : string) (download : bool)
    (transform : option Transform) (w w' : World) (self : t) :
  __init__ root year image_set download transform w = (Ok self, w') ->
  exists d lines,
    DATASET_YEAR_DICT !! table_year year = Some d
    /\ readlines (w_fs w') (split_f_of root d year image_set) = Done lines
    /\ length (images self) = length lines
    /\ length (masks self) = length lines
    /\ __len__ self = Z.of_nat (length lines)
    /\ forall (k : nat) (line : string),
         lines !! k = Some line ->
         let id := strip line in
         let image_dir := join (voc_root_of root d) "JPEGImages" in
         let mask_dir := mask_dir_of root d year image_set in
         images self !! k = Some (join image_dir (id +:+ ".jpg"))
         /\ masks self !! k = Some (join mask_dir (id +:+ ".png"))
         /\ (startswith id "/" = false ->
             images self !! k = Some (image_dir +:+ "/" +:+ id +:+ ".jpg")
             /\ masks self !! k = Some (mask_dir +:+ "/" +:+ id +:+ ".png")).
Proof.
  intros Hinit.
  destruct (init_success _ _ _ _ _ _ _ _ Hinit)
    as (d & w1 & lines & Hd & _ & _ & _ & _ & Hr & -> & Him & Hma).
  exists d, lines. cbn [w_fs]. unfold __len__. rewrite Him, Hma, !length_map.
  repeat split; try done.
  1-2: change (map ?f ?l) with (f <$> l);
       by rewrite !list_lookup_fmap, H.
  all: change (map ?f ?l) with (f <$> l);
       rewrite !list_lookup_fmap, H; cbn; f_equal.
  - destruct (subdir_plain root _ "JPEGImages" d Hd) as (_ & Hne & He); try done.
    apply join_plain; try done. by apply startswith_sep_app.
  - assert (Hm : mask_dir_of root d year image_set <> ""
                 /\ endswith (mask_dir_of root d year image_set) "/" = false).
    { unfold mask_dir_of. destruct (aug_train year image_set).
      - by destruct (subdir_plain root _ "SegmentationClassAug" d Hd) as (_ & ? & ?).
      - by destruct (subdir_plain root _ "SegmentationClass" d Hd) as (_ & ? & ?). }
    destruct Hm. apply join_plain; try done. by apply startswith_sep_app.
Qed.

(** C9, as the code has it: a construction that succeeds has tested
    and read, as its last two calls, the manifest [train_aug.txt] joined
    to the root for version ['2012_aug'] with split ['train'], and
    otherwise the file named after the split (its trailing newlines
    removed) joined to [ImageSets/Segmentation] under the base
    directory; the mask paths lie under [SegmentationClassAug] in the
    first case and under [SegmentationClass] in the second. For a split
    without leading separator or trailing newline the manifest is
    [<base_dir>/ImageSets/Segmentation/<split>.txt]. *)
Theorem init_layout (root year image_set : string) (download : bool)
    (transform : option Transform) (w w' : World) (self : t) :
  __init__ root year image_set download transform w = (Ok self, w') ->
  exists d lines log0,
    DATASET_YEAR_DICT !! table_year year = Some d /\
    let aug := String.eqb year "2012_aug" && String.eqb image_set "train" in
    let voc_root := join (expanduser root) (d_base_dir d) in
    let manifest :=
      if aug then join (expanduser root) "train_aug.txt"
      else join (voc_root +:+ "/ImageSets/Segmentation")
                (rstrip image_set LF +:+ ".txt") in
    let mask_dir :=
      if aug then voc_root +:+ "/SegmentationClassAug"
      else voc_root +:+ "/SegmentationClass" in
    w_log w' = log0 ++ [SysExists manifest; SysReadLines manifest]
    /\ readlines (w_fs w') manifest = Done lines
    /\ masks self = map (fun line => join mask_dir (strip line +:+ ".png")) lines
    /\ (aug = false ->
        startswith image_set "/" = false ->
        endswith image_set (String LF "") = false ->
        manifest = voc_root +:+ "/ImageSets/Segmentation/" +:+ image_set +:+ ".txt").
Proof.
  intros Hinit.
  destruct (init_success _ _ _ _ _ _ _ _ Hinit)
    as (d & w1 & lines & Hd & _ & _ & _ & _ & Hr & -> & _ & Hma).
  destruct (subdir_plain root _ "SegmentationClassAug" d Hd) as (Ea & _); try done.
  destruct (subdir_plain root _ "SegmentationClass" d Hd) as (Ec & _); try done.
  destruct (subdir_plain root _ "ImageSets/Segmentation" d Hd) as (Es & Hne & He);
    try done.
  exists d, lines,
    (w_log w1 ++ [SysIsDir (voc_root_of root d)]
     ++ (if aug_train year image_set
         then [SysExists (mask_dir_of root d year image_set)] else [])).
  split; [exact Hd|]. cbn zeta. fold (voc_root_of root d) (aug_train year image_set).
  unfold init_calls, split_f_of, mask_dir_of in *. cbn [w_fs w_log].
  rewrite Hma, map_map, Ea, Ec, Es in *.
  change (voc_root_of root d +:+ "/" +:+ ?x) with (voc_root_of root d +:+ String "/" x) in *.
  destruct (aug_train year image_set).
  - repeat split; try done. by rewrite <- !app_assoc.
  - repeat split; try done; [by rewrite <- !app_assoc|].
    intros _ Hs Hl. rewrite rstrip_no_trailing by done.
    rewrite <- Es in Hne, He |- *.
    rewrite join_plain; [|done|done|by apply startswith_sep_app].
    rewrite Es. by rewrite append_assoc.
Qed.

Lemma list_getitem_outside {A} (l : list A) (i : Z) (w : World) :
  (i < - Z.of_nat (length l) \/ Z.of_nat (length l) <= i)%Z ->
  list_getitem l i w = (Raise index_error, w).
Proof.
  intros Hi. unfold list_getitem.
  destruct (Z.ltb_spec i 0);
    [destruct (Z.ltb_spec (i + Z.of_nat (length l)) 0)
    |destruct (Z.ltb_spec i 0); [lia|];
     destruct (Z.leb_spec (Z.of_nat (length l)) i)];
    try reflexivity; lia.
Qed.

Lemma list_getitem_inside {A} (l : list A) (i : Z) (w : World) :
  (- Z.of_nat (length l) <= i < Z.of_nat (length l))%Z ->
  exists x, list_getitem l i w = (Ok x, w).
Proof.
  intros Hi. unfold list_getitem.
  set (k := if (i <? 0)%Z then (i + Z.of_nat (length l))%Z else i).
  assert (Hk : (0 <= k < Z.of_nat (length l))%Z)
    by (unfold k; destruct (Z.ltb_spec i 0); lia).
  destruct (Z.ltb_spec k 0); [lia|].
  destruct (Z.leb_spec (Z.of_nat (length l)) k); [lia|]. cbn [orb].
  destruct (lookup_lt_is_Some_2 l (Z.to_nat k)) as [x Hx]; [lia|].
  rewrite Hx. by exists x.
Qed.

Lemma list_getitem_negative {A} (l : list A) (i : Z) (w : World) :
  (- Z.of_nat (length l) <= i < 0)%Z ->
  list_getitem l i w = list_getitem l (i + Z.of_nat (length l)) w.
Proof.
  intros Hi.
  assert (E1 : (i <? 0)%Z = true) by (apply Z.ltb_lt; lia).
  assert (E2 : (i + Z.of_nat (length l) <? 0)%Z = false) by (apply Z.ltb_ge; lia).
  unfold list_getitem. cbv zeta. by rewrite E1, !E2.
Qed.

Lemma getitem_negative_run (root year image_set : string)
    (download : bool) (transform : option Transform) (w0 w1 w : World)
    (self : t) (i : Z) :
  __init__ root year image_set download transform w0 = (Ok self, w1) ->
  (- __len__ self <= i < 0)%Z ->
  __getitem__ self i w = __getitem__ self (i + __len__ self) w.
Proof.
  intros Hinit Hi.
  destruct (init_success _ _ _ _ _ _ _ _ Hinit)
    as (d & _ & lines & _ & _ & _ & _ & _ & _ & _ & Him & Hma).
  assert (Hlen : length (masks self) = length (images self))
    by (by rewrite Him, Hma, !length_map).
  unfold __len__ in *. unfold __getitem__, mbind, M_bind, bind.
  rewrite (list_getitem_negative (images self)) by exact Hi.
  destruct (list_getitem (images self) _ w) as [[p|e] w2]; [|reflexivity].
  destruct (sys_read _ _ w2) as [[im|e] w3]; [|reflexivity].
  destruct (call _ w3) as [[img|e] w4]; [|reflexivity].
  rewrite (list_getitem_negative (masks self)) by (rewrite Hlen; exact Hi).
  by rewrite Hlen.
Qed.

(** C4, as the code has it: for an object built from a manifest of
    [N] lines, [__getitem__] raises [IndexError] for every index
    outside [-N, N), among them [N] and [-1-N], leaving the world
    untouched, and never raises it for an index in [-N, N): a negative
    index counts from the end, [i] of [-N, 0) doing what [N + i] does. *)
Theorem getitem_index_range (root year image_set : string) (download : bool)
    (transform : option Transform) (w0 w1 w : World) (self : t) (index : Z) :
  __init__ root year image_set download transform w0 = (Ok self, w1) ->
  let N := __len__ self in
  ((index < - N \/ N <= index)%Z -> __getitem__ self index w = (Raise index_error, w))
  /\ ((- N <= index < N)%Z ->
      forall msg, fst (__getitem__ self index w) <> Raise (IndexError msg))
  /\ __getitem__ self N w = (Raise index_error, w)
  /\ __getitem__ self (-1 - N) w = (Raise index_error, w)
  /\ ((- N <= index < 0)%Z ->
      __getitem__ self index w = __getitem__ self (index + N) w).
Proof.
  intros Hinit N.
  assert (Hneg : (- N <= index < 0)%Z ->
            __getitem__ self index w = __getitem__ self (index + N) w)
    by (intros Hi; exact (getitem_negative_run _ _ _ _ _ _ _ w _ _ Hinit Hi)).
  cut (((index < - N \/ N <= index)%Z ->
        __getitem__ self index w = (Raise index_error, w))
       /\ ((- N <= index < N)%Z ->
           forall msg, fst (__getitem__ self index w) <> Raise (IndexError msg))
       /\ __getitem__ self N w = (Raise index_error, w)
       /\ __getitem__ self (-1 - N) w = (Raise index_error, w));
    [intros (H1 & H2 & H3 & H4); by repeat (split; [assumption|])|].
  clear Hneg.
  destruct (init_success _ _ _ _ _ _ _ _ Hinit)
    as (d & _ & lines & _ & _ & _ & _ & _ & _ & _ & Him & Hma).
  assert (Hlen : length (masks self) = length (images self))
    by (by rewrite Him, Hma, !length_map).
  assert (Hout : forall i, (i < - N \/ N <= i)%Z ->
            __getitem__ self i w = (Raise index_error, w)).
  { intros i Hi. unfold __getitem__, mbind, M_bind, bind.
    by rewrite list_getitem_outside. }
  split; [apply Hout|]. split; [|split; apply Hout; unfold N, __len__; lia].
  intros Hi msg. unfold __getitem__, mbind, M_bind, bind.
  destruct (list_getitem_inside (images self) index w) as [p ->]; [exact Hi|].
  run_monad. destruct (Image_open (w_fs w) p) as [im|]; [|done].
  run_monad. destruct (Image_convert im "RGB") as [img|]; [|done].
  run_monad.
  destruct (list_getitem_inside (masks self) index
              (logged (SysImageOpen p) w)) as [q ->];
    [rewrite Hlen; exact Hi|].
  run_monad. destruct (Image_open (w_fs w) q) as [target|]; [|done].
  run_monad. destruct (VOCSegmentation.transform self) as [f|]; [|done].
  run_monad. by destruct (f img target).
Qed.

End DatasetProperties.

(** ** Concrete runs *)

Section ConcreteRuns.
Import VOCSegmentation Demo.

(** An archive with the member [../../escape.txt] is refused after the
    download and the opening of the archive, and nothing is written: the
    file system is the one before the call. *)
Example traversal_archive_rejected :
  let r := @download_extract platform "http://host/evil.tar" "/data" "evil.tar" "md5"
             (world fs_archives) in
  fst r = Raise path_traversal
  /\ w_fs (snd r) = fs_archives
  /\ w_log (snd r) = [SysDownload "http://host/evil.tar" "/data" "evil.tar" "md5";
                      SysTarOpen "/data/evil.tar"].
Proof. vm_compute. by repeat split. Qed.

(** A well-formed archive is extracted member by member. *)
Example good_archive_extracted :
  let r := @download_extract platform "http://host/good.tar" "/data" "good.tar" "md5"
             (world fs_archives) in
  fst r = Ok tt
  /\ find (w_fs (snd r)) "/data/VOCdevkit/VOC2012/a.txt" = Some (File [])
  /\ find (w_fs (snd r)) "/data/VOCdevkit/VOC2012/b.txt" = Some (File [])
  /\ w_log (snd r) = [SysDownload "http://host/good.tar" "/data" "good.tar" "md5";
                      SysTarOpen "/data/good.tar"; SysExtractAll "/data"].
Proof. vm_compute. by repeat split. Qed.



Lemma val_constructed :
  @__init__ platform "/data" "2012" "val" false None (world fs_val)
  = (Ok val_self, val_world).
Proof. vm_compute. reflexivity. Qed.

Lemma init_unsupported_year_witness :
  @__init__ platform "/data" "2013" "train" true None (world fs_val)
  = (Raise (KeyError "2013"), world fs_val).
Proof.
  apply (@init_unsupported_year platform).
  - apply (bool_decide_unpack _). vm_compute. exact I.
  - apply (bool_decide_unpack _). vm_compute. exact I.
Defined.

(** C4 fails at index [-1]: outside [0, 3), and yet the last sample is
    opened and returned. *)
Lemma getitem_negative_index_returns :
  @__init__ platform "/data" "2012" "val" false None (world fs_val)
  = (Ok val_self, val_world)
  /\ __len__ val_self = 3%Z
  /\ ~ (0 <= -1 < __len__ val_self)%Z
  /\ fst (@__getitem__ platform val_self (-1)%Z val_world)
     = Ok ("/data/VOCdevkit/VOC2012/JPEGImages/2007_000032.jpg",
           "/data/VOCdevkit/VOC2012/SegmentationClass/2007_000032.png").
Proof.
  split; [exact val_constructed|]. split; [reflexivity|].
  split; [vm_compute; intros [? ?]; done | vm_compute; reflexivity].
Qed.

Lemma getitem_index_range_witness :
  @__init__ platform "/data" "2012" "val" false None (world fs_val)
  = (Ok val_self, val_world)
  /\ @__getitem__ platform val_self (__len__ val_self) val_world
     = (Raise index_error, val_world)
  /\ @__getitem__ platform val_self (-1 - __len__ val_self)%Z val_world
     = (Raise index_error, val_world).
Proof.
  pose proof (@getitem_index_range platform "/data" "2012" "val" false None
                (world fs_val) val_world val_world val_self 0%Z val_constructed) as H.
  cbv zeta in H. destruct H as (_ & _ & H3 & H4 & _).
  split; [exact val_constructed|]. split; [exact H3 | exact H4].
Defined.

(** C6 fails for the augmented-train variant: the base directory is
    there, the manifest [train_aug.txt] is not, and the constructor
    raises [AssertionError] for the missing mask directory instead of
    the invalid-split [ValueError]. *)
Lemma init_aug_without_masks_asserts :
  isdir (Platform := platform) fs_bare "/data/VOCdevkit/VOC2012" = true
  /\ exists_ (Platform := platform) fs_bare "/data/train_aug.txt" = false
  /\ fst (@__init__ platform "/data" "2012_aug" "train" false None (world fs_bare))
     = Raise (AssertionError msg_aug_not_found)
  /\ fst (@__init__ platform "/data" "2012_aug" "train" false None (world fs_bare))
     <> Raise (ValueError msg_wrong_image_set).
Proof.
  assert (H : fst (@__init__ platform "/data" "2012_aug" "train" false None
                     (world fs_bare))
              = Raise (AssertionError msg_aug_not_found))
    by (vm_compute; reflexivity).
  split; [reflexivity|]. split; [reflexivity|].
  split; [exact H | rewrite H; discriminate].
Qed.

Lemma init_not_found_or_invalid_split_witness :
  fst (@__init__ platform "/data" "2012" "test" false None (world fs_bare))
  = Raise (ValueError msg_wrong_image_set).
Proof.
  destruct (@init_not_found_or_invalid_split platform "/data" "2012" "test" false None
              (mk_Descriptor
                 "http://host.robots.ox.ac.uk/pascal/VOC/voc2012/VOCtrainval_11-May-2012.tar"
                 "VOCtrainval_11-May-2012.tar" "6cd6e144f989b92b3379bac3b3de84fd"
                 "VOCdevkit/VOC2012")
              (world fs_bare) (world fs_bare)
              ltac:(vm_compute; reflexivity) ltac:(reflexivity))
    as (_ & [_ Hv] & _).
  apply Hv. split; [vm_compute; reflexivity|].
  split; [intros H; vm_compute in H; discriminate | vm_compute; reflexivity].
Defined.

(** C7 fails for an identifier that begins with a separator: line 1 of
    the manifest, trimmed, is [/abs], and entry 1 of the image list is
    [/abs.jpg], not a path under the image directory. *)
Lemma absolute_identifier_escapes_image_dir :
  @__init__ platform "/data" "2012" "val" false None (world fs_val)
  = (Ok val_self, val_world)
  /\ strip (" /abs  " +:+ String LF "") = "/abs"
  /\ images val_self !! 1%nat = Some "/abs.jpg"
  /\ images val_self !! 1%nat
     <> Some ("/data/VOCdevkit/VOC2012/JPEGImages" +:+ "/" +:+ "/abs" +:+ ".jpg").
Proof.
  split; [exact val_constructed|]. split; [reflexivity|].
  split; [reflexivity | discriminate].
Qed.

Lemma init_builds_samples_witness :
  exists d lines,
    DATASET_YEAR_DICT !! "2012" = Some d
    /\ readlines (Platform := platform) fs_val
         (split_f_of (P := platform) "/data" d "2012" "val")
       = Done lines
    /\ length (images val_self) = length lines
    /\ __len__ val_self = Z.of_nat (length lines).
Proof.
  destruct (@init_builds_samples platform "/data" "2012" "val" false None
              (world fs_val) val_world val_self val_constructed)
    as (d & lines & Hd & Hr & Hi & _ & Hl & _).
  exists d, lines. repeat split; assumption.
Defined.

(** C9 fails for a split that ends in a newline: the manifest consulted
    is [val.txt], not the file named after the split as given. *)
Lemma split_with_newline_reads_stripped_name :
  let image_set := "val" +:+ String LF "" in
  let r := @__init__ platform "/data" "2012" image_set false None (world fs_val) in
  (exists self, fst r = Ok self)
  /\ w_log (snd r)
     = [SysIsDir "/data/VOCdevkit/VOC2012";
        SysExists "/data/VOCdevkit/VOC2012/ImageSets/Segmentation/val.txt";
        SysReadLines "/data/VOCdevkit/VOC2012/ImageSets/Segmentation/val.txt"]
  /\ "/data/VOCdevkit/VOC2012/ImageSets/Segmentation/val.txt"
     <> "/data/VOCdevkit/VOC2012" +:+ "/ImageSets/Segmentation/" +:+ image_set +:+ ".txt".
Proof.
  split; [|split].
  - eexists. vm_compute. reflexivity.
  - vm_compute. reflexivity.
  - vm_compute. discriminate.
Qed.

Lemma init_layout_witness :
  exists log0,
    w_log val_world
    = log0 ++ [SysExists "/data/VOCdevkit/VOC2012/ImageSets/Segmentation/val.txt";
               SysReadLines "/data/VOCdevkit/VOC2012/ImageSets/Segmentation/val.txt"].
Proof.
  destruct (@init_layout platform "/data" "2012" "val" false None
              (world fs_val) val_world val_self val_constructed)
    as (d & lines & log0 & Hd & Hlog & _).
  exists log0.
  assert (Ed : d = mk_Descriptor
                 "http://host.robots.ox.ac.uk/pascal/VOC/voc2012/VOCtrainval_11-May-2012.tar"
                 "VOCtrainval_11-May-2012.tar" "6cd6e144f989b92b3379bac3b3de84fd"
                 "VOCdevkit/VOC2012")
    by (vm_compute in Hd; congruence).
  subst d. exact Hlog.
Defined.

End ConcreteRuns.

(** * Further properties *)

(** ** The colours, bit by bit *)

Lemma testbit_b2z (x : bool) (k : Z) : Z.testbit (Z.b2z x) k = x && (k =? 0)%Z.
Proof.
  destruct x; cbn [Z.b2z andb]; [|apply Z.bits_0].
  destruct k as [|p|p]; [reflexivity| |reflexivity]. by destruct p.
Qed.

Lemma testbit_bit_shift (x : bool) (s p : Z) :
  (0 <= p)%Z -> Z.testbit (Z.shiftl (Z.b2z x) s) p = x && (p =? s)%Z.
Proof.
  intros Hp. rewrite Z.shiftl_spec, testbit_b2z by lia. f_equal.
  destruct (Z.eqb_spec (p - s) 0), (Z.eqb_spec p s); lia || reflexivity.
Qed.

(** Bit [p] of a channel after rounds [j .. j+n-1]: what was there, or,
    for [p = 7 - k] with [k] one of the rounds, the bit of [c] that round
    [k] looked at. *)
Lemma interleave_bits (n : nat) (j r g b c p : Z) :
  (0 <= j)%Z -> (0 <= p)%Z ->
  let '(r', g', b') := interleave n j r g b c in
  let hit := ((7 - (j + Z.of_nat n) <? p) && (p <=? 7 - j))%Z in
  Z.testbit r' p = Z.testbit r p || hit && Z.testbit c (3 * (7 - j - p))
  /\ Z.testbit g' p = Z.testbit g p || hit && Z.testbit c (3 * (7 - j - p) + 1)
  /\ Z.testbit b' p = Z.testbit b p || hit && Z.testbit c (3 * (7 - j - p) + 2).
Proof.
  revert j r g b c. induction n as [|n IH]; intros j r g b c Hj Hp.
  - cbn [interleave]. cbv zeta.
    replace ((7 - (j + Z.of_nat 0) <? p) && (p <=? 7 - j))%Z with false
      by (destruct (Z.ltb_spec (7 - (j + Z.of_nat 0)) p), (Z.leb_spec p (7 - j));
          lia || reflexivity).
    by rewrite !orb_false_r.
  - cbn [interleave].
    specialize (IH (j + 1)%Z
                  (Z.lor r (Z.shiftl (Z.b2z (Z.testbit c 0)) (7 - j)))
                  (Z.lor g (Z.shiftl (Z.b2z (Z.testbit c 1)) (7 - j)))
                  (Z.lor b (Z.shiftl (Z.b2z (Z.testbit c 2)) (7 - j)))
                  (Z.shiftr c 3) ltac:(lia) Hp).
    destruct (interleave n (j + 1) _ _ _ _) as [[r' g'] b']. cbv zeta in *.
    destruct IH as (Hr & Hg & Hb). rewrite Hr, Hg, Hb.
    rewrite !Z.lor_spec, !testbit_bit_shift by lia.
    replace (7 - (j + 1 + Z.of_nat n))%Z with (7 - (j + Z.of_nat (S n)))%Z by lia.
    destruct (Z.eqb_spec p (7 - j)) as [->|Hne].
    + replace (7 - j <=? 7 - (j + 1))%Z with false
        by (symmetry; apply Z.leb_gt; lia).
      rewrite Z.leb_refl, !andb_false_r, !andb_true_r, !orb_false_r.
      replace (7 - (j + Z.of_nat (S n)) <? 7 - j)%Z with true
        by (symmetry; apply Z.ltb_lt; lia).
      cbn [andb]. replace (3 * (7 - j - (7 - j)))%Z with 0%Z by lia.
      by repeat split.
    + rewrite !andb_false_r, !orb_false_r.
      destruct (Z.ltb_spec (7 - (j + Z.of_nat (S n))) p); cbn [andb]; [|by repeat split].
      destruct (Z.leb_spec p (7 - (j + 1))), (Z.leb_spec p (7 - j)); try lia;
        cbn [andb]; [|by repeat split].
      rewrite !Z.shiftr_spec by lia.
      replace (3 * (7 - (j + 1) - p) + 3)%Z with (3 * (7 - j - p))%Z by lia.
      replace (3 * (7 - (j + 1) - p) + 1 + 3)%Z with (3 * (7 - j - p) + 1)%Z by lia.
      replace (3 * (7 - (j + 1) - p) + 2 + 3)%Z with (3 * (7 - j - p) + 2)%Z by lia.
      by repeat split.
Qed.

Lemma color_bits (i k : Z) :
  (0 <= k <= 7)%Z ->
  let '(r, g, b) := cmap_color i in
  Z.testbit r k = Z.testbit i (3 * (7 - k))
  /\ Z.testbit g k = Z.testbit i (3 * (7 - k) + 1)
  /\ Z.testbit b k = Z.testbit i (3 * (7 - k) + 2).
Proof.
  intros Hk. rewrite cmap_color_reference. unfold reference_color.
  pose proof (interleave_bits 8 0 0 0 0 i k ltac:(lia) ltac:(lia)) as H.
  destruct (interleave 8 0 0 0 0 i) as [[r g] b]. cbv zeta in H.
  rewrite !Z.bits_0 in H. cbn [orb] in H.
  replace ((7 - (0 + Z.of_nat 8) <? k) && (k <=? 7 - 0))%Z with true in H
    by (symmetry; apply andb_true_iff; split; [apply Z.ltb_lt | apply Z.leb_le]; lia).
  cbn [andb] in H. by replace (7 - 0 - k)%Z with (7 - k)%Z in H by lia.
Qed.

(** Bit [k] of red, green and blue is bit [3 (7 - k)], [3 (7 - k) + 1]
    and [3 (7 - k) + 2] of the index: the three low bits of the index are
    the top bits of the channels, the next three the bits below, and so
    on. *)
Theorem cmap_color_bits (i k : Z) :
  (0 <= k <= 7)%Z ->
  let '(r, g, b) := cmap_color i in
  Z.testbit r k = Z.testbit i (3 * (7 - k))
  /\ Z.testbit g k = Z.testbit i (3 * (7 - k) + 1)
  /\ Z.testbit b k = Z.testbit i (3 * (7 - k) + 2).
Proof. apply color_bits. Qed.

Lemma cmap_color_bits_witness :
  let '(r, g, b) := cmap_color 5 in
  Z.testbit r 7 = Z.testbit 5 (3 * (7 - 7))
  /\ Z.testbit g 7 = Z.testbit 5 (3 * (7 - 7) + 1)
  /\ Z.testbit b 7 = Z.testbit 5 (3 * (7 - 7) + 2).
Proof. apply (cmap_color_bits 5 7). lia. Defined.

Lemma testbit_high (a n m : Z) :
  (0 <= a < 2 ^ n)%Z -> (0 <= n <= m)%Z -> Z.testbit a m = false.
Proof.
  intros Ha Hm. rewrite <- (Z.mod_small a (2 ^ n)) by lia.
  by apply Z.mod_pow2_bits_high.
Qed.

Lemma byte_eq_bits (x y : Z) :
  byte_range x -> byte_range y ->
  (forall k, (0 <= k <= 7)%Z -> Z.testbit x k = Z.testbit y k) -> x = y.
Proof.
  unfold byte_range. intros Hx Hy H. apply Z.bits_inj'. intros k Hk.
  destruct (Z.le_gt_cases k 7); [apply H; lia|].
  rewrite (testbit_high x 8 k), (testbit_high y 8 k) by lia. reflexivity.
Qed.

(** Two indices that agree on their 24 low bits have the same colour. *)
Lemma cmap_color_low_bits (i i' : Z) :
  (forall m, (0 <= m < 24)%Z -> Z.testbit i m = Z.testbit i' m) ->
  cmap_color i = cmap_color i'.
Proof.
  intros H.
  pose proof (cmap_color_byte i) as Hb. pose proof (cmap_color_byte i') as Hb'.
  pose proof (color_bits i) as Hi. pose proof (color_bits i') as Hi'.
  destruct (cmap_color i) as [[r g] b], (cmap_color i') as [[r' g'] b'].
  destruct Hb as (? & ? & ?), Hb' as (? & ? & ?).
  f_equal; [f_equal|]; apply byte_eq_bits; try done; intros k Hk;
    destruct (Hi k Hk) as (Er & Eg & Eb), (Hi' k Hk) as (Er' & Eg' & Eb');
    rewrite ?Er, ?Eg, ?Eb, ?Er', ?Eg', ?Eb'; apply H; lia.
Qed.

(** An index below [2^24] is determined by its colour. *)
Lemma cmap_color_inj (i i' : Z) :
  (0 <= i < 2 ^ 24)%Z -> (0 <= i' < 2 ^ 24)%Z ->
  cmap_color i = cmap_color i' -> i = i'.
Proof.
  intros Hi Hi' Heq. apply Z.bits_inj'. intros n Hn.
  destruct (Z.lt_ge_cases n 24) as [Hlt|Hge].
  - pose proof (Z.div_mod n 3 ltac:(lia)) as Hdm.
    pose proof (Z.mod_pos_bound n 3 ltac:(lia)) as Ho.
    assert (Hq : (0 <= n / 3 <= 7)%Z)
      by (split; [apply Z.div_pos; lia | apply Z.lt_succ_r, Z.div_lt_upper_bound; lia]).
    pose proof (color_bits i (7 - n / 3) ltac:(lia)) as B.
    pose proof (color_bits i' (7 - n / 3) ltac:(lia)) as B'.
    rewrite Heq in B. destruct (cmap_color i') as [[r g] b].
    replace (7 - (7 - n / 3))%Z with (n / 3)%Z in B, B' by lia.
    destruct B as (Br & Bg & Bb), B' as (Br' & Bg' & Bb').
    assert (Ho' : (n mod 3 = 0 \/ n mod 3 = 1 \/ n mod 3 = 2)%Z) by lia.
    destruct Ho' as [E|[E|E]]; rewrite E in Hdm.
    + replace n with (3 * (n / 3))%Z by lia. congruence.
    + replace n with (3 * (n / 3) + 1)%Z by lia. congruence.
    + replace n with (3 * (n / 3) + 2)%Z by lia. congruence.
  - by rewrite (testbit_high i 24 n), (testbit_high i' 24 n).
Qed.

(** Two indices have the same colour exactly when they are congruent
    modulo [2^24]: only the 24 low bits of an index reach the colour,
    and all of them do. *)
Theorem cmap_color_eq_iff (i j : Z) :
  cmap_color i = cmap_color j <-> (i mod 2 ^ 24 = j mod 2 ^ 24)%Z.
Proof.
  assert (Hmod : forall x, cmap_color (x mod 2 ^ 24) = cmap_color x).
  { intros x. apply cmap_color_low_bits. intros m Hm.
    apply Z.mod_pow2_bits_low. lia. }
  split.
  - intros H. apply cmap_color_inj; try (apply Z.mod_pos_bound; lia).
    by rewrite !Hmod.
  - intros H. by rewrite <- (Hmod i), <- (Hmod j), H.
Qed.

Lemma u8_row_inj (x y : Z * Z * Z) : u8_row x = u8_row y -> x = y.
Proof. destruct x as [[? ?] ?], y as [[? ?] ?]. cbn. congruence. Qed.

Lemma f32_div255_inj (a b : Z) :
  byte_range a -> byte_range b -> f32_div255 a = f32_div255 b -> a = b.
Proof.
  intros Ha Hb Heq.
  set (qs := map (fun v => (v, f32_div255 v)) bytes).
  assert (Hall : forallb (fun x : Z * spec_float => forallb (fun y : Z * spec_float =>
                   (x.1 =? y.1)%Z || negb (SFeqb x.2 y.2)) qs) qs = true)
    by (vm_compute; reflexivity).
  assert (Hrefl : forallb (fun x : Z * spec_float => SFeqb x.2 x.2) qs = true)
    by (vm_compute; reflexivity).
  rewrite forallb_forall in Hall, Hrefl.
  assert (Iq : forall v, byte_range v -> In (v, f32_div255 v) qs).
  { intros v Hv. apply (in_map (fun v => (v, f32_div255 v))).
    apply list_elem_of_In, elem_of_seqZ. unfold byte_range in Hv. lia. }
  specialize (Hall _ (Iq a Ha)). rewrite forallb_forall in Hall.
  specialize (Hall _ (Iq b Hb)). specialize (Hrefl _ (Iq a Ha)).
  cbn [fst snd] in Hall, Hrefl. rewrite <- Heq, Hrefl in Hall.
  cbn in Hall. rewrite orb_false_r in Hall. by apply Z.eqb_eq.
Qed.

Lemma f32_row_div255_inj (x y : Z * Z * Z) :
  (let '(r, g, b) := x in byte_range r /\ byte_range g /\ byte_range b) ->
  (let '(r, g, b) := y in byte_range r /\ byte_range g /\ byte_range b) ->
  f32_row_div255 x = f32_row_div255 y -> x = y.
Proof.
  destruct x as [[r g] b], y as [[r' g'] b'].
  intros (? & ? & ?) (? & ? & ?) [= Hr Hg Hb].
  f_equal; [f_equal|]; by apply f32_div255_inj.
Qed.

(** A table of at most [2^24] rows, normalized or not, has no two equal
    rows: distinct class indices get distinct colours. *)
Theorem voc_cmap_rows_distinct (N : Z) (normalized : bool) :
  (N <= 2 ^ 24)%Z ->
  match voc_cmap N normalized with
  | Ok cmap => NoDup (np.nd_rows cmap)
  | Raise _ => (N < 0)%Z
  end.
Proof.
  intros HN. rewrite voc_cmap_run.
  destruct (Z.ltb_spec N 0) as [|Hpos]; [done|]. cbn [np.nd_rows].
  change (map ?f ?l) with (f <$> l).
  apply NoDup_fmap_2_strong; [|apply NoDup_seq].
  intros x y Hx Hy Heq.
  apply elem_of_seq in Hx, Hy.
  assert (Hc : cmap_color (Z.of_nat x) = cmap_color (Z.of_nat y)).
  { destruct normalized; [|by apply u8_row_inj].
    apply f32_row_div255_inj; [apply cmap_color_byte..|done]. }
  apply cmap_color_inj in Hc; lia.
Qed.

Lemma voc_cmap_rows_distinct_witness :
  match voc_cmap 256 false with
  | Ok cmap => NoDup (np.nd_rows cmap)
  | Raise _ => (256 < 0)%Z
  end.
Proof. apply (voc_cmap_rows_distinct 256 false). lia. Defined.

(** A smaller table is the beginning of a larger one: an entry depends on
    its index, not on the size asked for. *)
Theorem voc_cmap_prefix (N M : Z) (normalized : bool) :
  (0 <= N <= M)%Z ->
  exists a b,
    voc_cmap N normalized = Ok a /\ voc_cmap M normalized = Ok b
    /\ np.nd_rows a = take (Z.to_nat N) (np.nd_rows b).
Proof.
  intros H. rewrite !voc_cmap_run.
  destruct (Z.ltb_spec N 0), (Z.ltb_spec M 0); try lia.
  do 2 eexists. repeat (split; [reflexivity|]). cbn [np.nd_rows].
  change (map ?f ?l) with (f <$> l).
  rewrite <- fmap_take, take_seq. do 2 f_equal. lia.
Qed.

Lemma voc_cmap_prefix_witness :
  exists a b,
    voc_cmap 2 true = Ok a /\ voc_cmap 4 true = Ok b
    /\ np.nd_rows a = take (Z.to_nat 2) (np.nd_rows b).
Proof. apply (voc_cmap_prefix 2 4 true). lia. Defined.

Lemma f32_div255_unit (v : Z) :
  byte_range v -> f32_unit_interval (f32_div255 v) = true.
Proof.
  intros Hv.
  assert (Hall : forallb (fun v => f32_unit_interval (f32_div255 v)) bytes = true)
    by (vm_compute; reflexivity).
  rewrite forallb_forall in Hall. apply Hall.
  apply list_elem_of_In, elem_of_seqZ. unfold byte_range in Hv. lia.
Qed.

(** Every cell of a normalized table is a single-precision number between
    0 and 1; a table is returned exactly for a size that is not negative. *)
Theorem voc_cmap_normalized_unit (N : Z) :
  match voc_cmap N true with
  | Ok cmap =>
      (0 <= N)%Z /\ np.nd_dtype cmap = np.float32 /\ Forall unit_row (np.nd_rows cmap)
  | Raise _ => (N < 0)%Z
  end.
Proof.
  rewrite voc_cmap_run. destruct (Z.ltb_spec N 0); [done|].
  split; [assumption|]. split; [reflexivity|]. cbn [np.nd_rows].
  induction (seq 0 (Z.to_nat N)) as [|k l IH]; constructor; [|exact IH].
  pose proof (cmap_color_byte (Z.of_nat k)) as Hb.
  destruct (cmap_color (Z.of_nat k)) as [[r g] b]. destruct Hb as (? & ? & ?).
  repeat split; eexists; (split; [reflexivity|]); by apply f32_div255_unit.
Qed.

(** ** Decoding a mask *)

Lemma to_int64_small (m : Z) :
  (- 2 ^ 63 <= m < 2 ^ 63)%Z -> np.to_int64 m = m.
Proof. intros Hm. unfold np.to_int64. rewrite Z.mod_small; lia. Qed.

Lemma to_int64_range (m : Z) : (- 2 ^ 63 <= np.to_int64 m < 2 ^ 63)%Z.
Proof.
  unfold np.to_int64.
  pose proof (Z.mod_pos_bound (m + 2 ^ 63) (2 ^ 64) ltac:(lia)). lia.
Qed.

Lemma to_int64_unsigned (m : Z) :
  (2 ^ 63 <= m < 2 ^ 64)%Z -> np.to_int64 m = (m - 2 ^ 64)%Z.
Proof.
  intros Hm. unfold np.to_int64.
  rewrite <- (Z.mod_unique_pos (m + 2 ^ 63) (2 ^ 64) 1 (m - 2 ^ 63)); lia.
Qed.

Lemma index_row_table_int64 (dt : np.dtype) (f : nat -> np.row) (N m : Z) :
  (- N <= np.to_int64 m < N)%Z ->
  np.index_row (np.mk_ndarray dt (map f (seq 0 (Z.to_nat N)))) m
  = Ok (f (Z.to_nat (np.to_int64 m mod N))).
Proof.
  intros Hm. unfold np.index_row. cbn [np.nd_rows].
  rewrite length_map, length_seq, Z2Nat.id by lia.
  generalize dependent (np.to_int64 m). clear m. intros m Hm.
  cbv zeta.
  destruct (Z.ltb_spec m (- N)); [lia|]. destruct (Z.leb_spec N m); [lia|].
  cbn [orb].
  assert (Hk : (if (m <? 0)%Z then (m + N)%Z else m) = (m mod N)%Z).
  { destruct (Z.ltb_spec m 0).
    - apply (Z.mod_unique_pos m N (-1)); lia.
    - symmetry. apply Z.mod_small; lia. }
  rewrite Hk. change (map ?g ?l) with (g <$> l).
  assert (0 <= m mod N < N)%Z by (apply Z.mod_pos_bound; lia).
  rewrite list_lookup_fmap, lookup_seq_lt by lia. reflexivity.
Qed.

Lemma index_row_table (dt : np.dtype) (f : nat -> np.row) (N m : Z) :
  (N <= 2 ^ 63)%Z -> (- N <= m < N)%Z ->
  np.index_row (np.mk_ndarray dt (map f (seq 0 (Z.to_nat N)))) m
  = Ok (f (Z.to_nat (m mod N))).
Proof.
  intros HN Hm. assert (Hi : np.to_int64 m = m) by (apply to_int64_small; lia).
  rewrite index_row_table_int64; rewrite Hi; [reflexivity | lia].
Qed.


(** The class table in closed form. *)
Lemma class_cmap :
  VOCSegmentation.cmap
  = Ok (np.mk_ndarray np.uint8
          (map (fun k => u8_row (cmap_color (Z.of_nat k))) (seq 0 (Z.to_nat 256)))).
Proof. unfold VOCSegmentation.cmap. by rewrite voc_cmap_run. Qed.

Lemma index_rows_class_table (ms : list Z) :
  Forall (fun m => (-256 <= m < 256)%Z) ms ->
  np.index_rows
    (np.mk_ndarray np.uint8
       (map (fun k => u8_row (cmap_color (Z.of_nat k))) (seq 0 (Z.to_nat 256)))) ms
  = Ok (map decoded ms).
Proof.
  induction 1 as [|m ms Hm _ IH]; [reflexivity|].
  cbn [np.index_rows map]. rewrite index_row_table, IH by lia.
  unfold decoded. rewrite Z2Nat.id; [reflexivity|].
  apply Z.mod_pos_bound. lia.
Qed.

Lemma decode_in_range (mask : np.iarray) :
  Forall (fun m => (-256 <= m < 256)%Z) (np.ia_data mask) ->
  VOCSegmentation.decode_target mask
  = Ok (np.mk_rgb_array np.uint8 (np.ia_shape mask) (map decoded (np.ia_data mask))).
Proof.
  intros H. unfold VOCSegmentation.decode_target. rewrite class_cmap.
  unfold np.getitem_array. by rewrite index_rows_class_table.
Qed.

(** A mask whose elements lie in [-256, 256) - every mask of bytes among
    them - decodes to an array of the same shape with one [uint8] colour
    per element: the colour of the element itself, or of the element plus
    256 when it is negative. *)
Theorem decode_target_in_range (mask : np.iarray) :
  Forall (fun m => (-256 <= m < 256)%Z) (np.ia_data mask) ->
  VOCSegmentation.decode_target mask
  = Ok (np.mk_rgb_array np.uint8 (np.ia_shape mask) (map decoded (np.ia_data mask))).
Proof. apply decode_in_range. Qed.

Lemma decode_target_in_range_witness :
  VOCSegmentation.decode_target (np.mk_iarray [2; 2]%nat [0; 1; 255; -1]%Z)
  = Ok (np.mk_rgb_array np.uint8 [2; 2]%nat (map decoded [0; 1; 255; -1]%Z)).
Proof.
  apply (decode_target_in_range (np.mk_iarray [2; 2]%nat [0; 1; 255; -1]%Z)).
  cbn [np.ia_data]. repeat constructor; lia.
Defined.



(** An element of an unsigned 64-bit mask from [2^63] on is read as a
    negative index: [2^64 - 1] is [-1] and decodes to the colour of class
    255. *)
Example decode_target_wraps_uint64 :
  VOCSegmentation.decode_target (np.mk_iarray [1]%nat [2 ^ 64 - 1]%Z)
  = Ok (np.mk_rgb_array np.uint8 [1]%nat [decoded 255]).
Proof.
  unfold VOCSegmentation.decode_target. rewrite class_cmap.
  unfold np.getitem_array. cbn [np.ia_data np.ia_shape np.index_rows np.nd_dtype].
  assert (Hi : np.to_int64 (2 ^ 64 - 1) = (-1)%Z) by (rewrite to_int64_unsigned; lia).
  rewrite index_row_table_int64 by (rewrite Hi; lia). by rewrite Hi.
Qed.

Lemma decoded_inj (x y : Z) :
  byte_range x -> byte_range y -> decoded x = decoded y -> x = y.
Proof.
  unfold byte_range, decoded. intros Hx Hy H. apply u8_row_inj in H.
  rewrite !Z.mod_small in H by lia. apply cmap_color_inj in H; lia.
Qed.

Lemma map_inj_on {A B : Type} (f : A -> B) (Q : A -> Prop) (l1 l2 : list A) :
  (forall x y, Q x -> Q y -> f x = f y -> x = y) ->
  Forall Q l1 -> Forall Q l2 -> map f l1 = map f l2 -> l1 = l2.
Proof.
  intros Hf H1. revert l2. induction H1 as [|x l1 Hx _ IH]; intros [|y l2] H2 Hm;
    try discriminate; [reflexivity|].
  apply Forall_cons in H2 as [Hy H2]. cbn [map] in Hm. injection Hm as Hxy Hm.
  f_equal; [by apply Hf | by apply IH].
Qed.

(** Decoding loses nothing on masks of bytes: two such masks with the same
    decoded array are the same mask, shape and elements. *)
Theorem decode_target_injective (mask1 mask2 : np.iarray) :
  Forall byte_range (np.ia_data mask1) ->
  Forall byte_range (np.ia_data mask2) ->
  VOCSegmentation.decode_target mask1 = VOCSegmentation.decode_target mask2 ->
  mask1 = mask2.
Proof.
  intros H1 H2.
  rewrite !decode_in_range
    by (eapply Forall_impl; [eassumption | unfold byte_range; intros; lia]).
  destruct mask1 as [s1 d1], mask2 as [s2 d2].
  cbn [np.ia_shape np.ia_data] in *.
  generalize (map_inj_on decoded byte_range d1 d2 decoded_inj H1 H2).
  generalize (map decoded d1) (map decoded d2).
  intros r1 r2 Hinj [= -> ->]. by rewrite Hinj.
Qed.

Lemma decode_target_injective_witness :
  np.mk_iarray [2]%nat [3; 255]%Z = np.mk_iarray [2]%nat [3; 255]%Z.
Proof.
  apply decode_target_injective.
  - cbn [np.ia_data]. repeat constructor; unfold byte_range; lia.
  - cbn [np.ia_data]. repeat constructor; unfold byte_range; lia.
  - reflexivity.
Defined.

(** ** Construction and access, as a user sees them *)

Section DatasetUse.
Context `{P : Platform}.
Import VOCSegmentation.

(** Without [download] the constructor only asks questions: whatever its
    outcome, the file system is the one it started from, and the calls it
    made are [isdir], [exists] and the reading of the manifest. *)
Theorem init_without_download_only_reads (root year image_set : string)
    (transform : option Transform) (w : World) :
  let r := __init__ root year image_set false transform w in
  w_fs (snd r) = w_fs w
  /\ exists calls, w_log (snd r) = w_log w ++ calls
                   /\ forallb is_query calls = true.
Proof.
  cbv zeta.
  destruct (DATASET_YEAR_DICT !! table_year year) as [d|] eqn:Hd.
  - rewrite (init_run _ _ _ _ _ d) by done. cbn [download_step ret]. cbv zeta.
    destruct (isdir (w_fs w) _); cbn [negb];
      [|split; [reflexivity | by exists [SysIsDir (voc_root_of root d)]]].
    destruct (aug_train year image_set); cbn [andb].
    + destruct (exists_ (w_fs w) (mask_dir_of _ _ _ _)); cbn [negb];
        [|split; [reflexivity|]; eexists; cbn; rewrite <- !app_assoc; by split].
      destruct (exists_ (w_fs w) (split_f_of _ _ _ _)); cbn [negb];
        [|split; [reflexivity|]; eexists; cbn; rewrite <- !app_assoc; by split].
      destruct (readlines _ _);
        (split; [reflexivity|]; eexists; cbn; rewrite <- !app_assoc; by split).
    + destruct (exists_ (w_fs w) (split_f_of _ _ _ _)); cbn [negb];
        [|split; [reflexivity|]; eexists; cbn; rewrite <- !app_assoc; by split].
      destruct (readlines _ _);
        (split; [reflexivity|]; eexists; cbn; rewrite <- !app_assoc; by split).
  - rewrite init_unknown_year by done. split; [reflexivity|].
    exists []. by rewrite app_nil_r.
Qed.

(** [download_extract], step by step. *)
Lemma download_extract_cases (url root filename md5 : string) (w : World) :
  download_extract url root filename md5 w =
  let '(o, fs1) := download_url url root filename md5 (w_fs w) in
  let w1 := mk_World fs1 (w_log w ++ [SysDownload url root filename md5]) in
  match o with
  | Failed c m => (Raise (Foreign c m), w1)
  | Done _ =>
      let w2 := logged (SysTarOpen (join root filename)) w1 in
      match tarfile_open fs1 (join root filename) with
      | Failed c m => (Raise (Foreign c m), w2)
      | Done tar =>
          if forallb (member_ok root) (tarfile.getmembers tar)
          then sys_write (SysExtractAll root) (extractall tar root None false) w2
          else (Raise path_traversal, w2)
      end
  end.
Proof.
  unfold download_extract, mbind, M_bind, bind, sys_write at 1, sys_read.
  destruct (download_url url root filename md5 (w_fs w)) as [[[]|c m] fs1];
    cbn [lift]; [|reflexivity].
  cbn [logged w_fs w_log].
  destruct (tarfile_open fs1 (join root filename)) as [tar|c m]; cbn [lift];
    [|reflexivity].
  apply safe_extract_run.
Qed.

(** The archive is extracted only after the download has succeeded, the
    archive has been opened and every member has passed the check; in each
    other case the calls stop before [extractall]. *)
Theorem download_extract_extracts_only_when_checked
    (url root filename md5 : string) (w : World) :
  let r := download_extract url root filename md5 w in
  exists calls,
    w_log (snd r) = w_log w ++ calls
    /\ (SysExtractAll root ∈ calls
        <-> exists fs tar,
              download_url url root filename md5 (w_fs w) = (Done tt, fs)
              /\ tarfile_open fs (join root filename) = Done tar
              /\ forallb (member_ok root) (tarfile.getmembers tar) = true).
Proof.
  cbv zeta. rewrite download_extract_cases.
  destruct (download_url url root filename md5 (w_fs w)) as [[[]|c m] fs1].
  - cbv zeta. destruct (tarfile_open fs1 (join root filename)) as [tar|c m] eqn:Ht.
    + destruct (forallb (member_ok root) (tarfile.getmembers tar)) eqn:Hok.
      * unfold sys_write.
        destruct (extractall tar root None false _) as [o fs2]. cbn.
        exists [SysDownload url root filename md5; SysTarOpen (join root filename);
                SysExtractAll root].
        split; [by rewrite <- !app_assoc|].
        split; [intros _; by exists fs1, tar|].
        intros _. rewrite !elem_of_cons. auto.
      * exists [SysDownload url root filename md5; SysTarOpen (join root filename)].
        cbn. split; [by rewrite <- !app_assoc|].
        rewrite !elem_of_cons, elem_of_nil. split.
        -- intros [H|[H|[]]]; discriminate H.
        -- intros (fs & tar' & [= <-] & Ht' & Hok'). congruence.
    + exists [SysDownload url root filename md5; SysTarOpen (join root filename)].
      cbn. split; [by rewrite <- !app_assoc|].
      rewrite !elem_of_cons, elem_of_nil. split.
      * intros [H|[H|[]]]; discriminate H.
      * intros (fs & tar' & [= <-] & Ht' & _). congruence.
  - exists [SysDownload url root filename md5]. cbn. split; [reflexivity|].
    rewrite !elem_of_cons, elem_of_nil. split.
    + intros [H|[]]; discriminate H.
    + intros (fs & tar' & [=] & _).
Qed.

Lemma download_extract_log (url root filename md5 : string) (w : World) :
  exists rest,
    w_log (snd (download_extract url root filename md5 w))
    = w_log w ++ SysDownload url root filename md5 :: rest.
Proof.
  rewrite download_extract_cases.
  destruct (download_url url root filename md5 (w_fs w)) as [[[]|c m] fs1];
    [|by exists []].
  cbv zeta. destruct (tarfile_open fs1 (join root filename)) as [tar|c m];
    [|eexists; cbn; by rewrite <- app_assoc].
  destruct (forallb (member_ok root) (tarfile.getmembers tar));
    [|eexists; cbn; by rewrite <- app_assoc].
  unfold sys_write. destruct (extractall tar root None false _) as [o fs2].
  eexists. cbn. by rewrite <- !app_assoc.
Qed.

(** With [download] set and a version the table knows, the first call of
    the constructor is the download, with the URL, file name and checksum
    of the version's descriptor and the expanded root as destination; and
    when the download or the extraction raises, the constructor raises the
    same exception without a further call. *)
Theorem init_download_comes_first (root year image_set : string)
    (transform : option Transform) (d : Descriptor) (w : World) :
  DATASET_YEAR_DICT !! table_year year = Some d ->
  let r := __init__ root year image_set true transform w in
  (exists rest,
     w_log (snd r)
     = w_log w ++ SysDownload (d_url d) (expanduser root) (d_filename d) (d_md5 d)
                  :: rest)
  /\ (forall e w1,
        download_extract (d_url d) (expanduser root) (d_filename d) (d_md5 d) w
        = (Raise e, w1) ->
        r = (Raise e, w1)).
Proof.
  intros Hd. cbv zeta. rewrite (init_run _ _ _ _ _ d) by done.
  cbn [download_step].
  destruct (download_extract_log (d_url d) (expanduser root) (d_filename d)
              (d_md5 d) w) as [rest Hlog].
  split; [|by intros e w1 ->].
  destruct (download_extract _ _ _ _ w) as [[[]|e] w1]; [|by exists rest].
  cbn [snd] in Hlog. cbv zeta.
  assert (Hext : forall w2 : World,
            (exists more, w_log w2 = w_log w1 ++ more) ->
            exists rest', w_log w2 = w_log w ++ SysDownload (d_url d) (expanduser root)
                                       (d_filename d) (d_md5 d) :: rest').
  { intros w2 [more ->]. rewrite Hlog, <- app_assoc. cbn. eauto. }
  destruct (isdir (w_fs w1) _); cbn [negb snd];
    [|apply Hext; cbn; eauto].
  destruct (aug_train year image_set); cbn [andb].
  - destruct (exists_ (w_fs w1) (mask_dir_of _ _ _ _)); cbn [negb snd];
      [|apply Hext; cbn; rewrite <- !app_assoc; eauto].
    destruct (exists_ (w_fs w1) (split_f_of _ _ _ _)); cbn [negb snd];
      [|apply Hext; cbn; rewrite <- !app_assoc; eauto].
    destruct (readlines _ _); cbn [snd];
      apply Hext; cbn; rewrite <- !app_assoc; eauto.
  - destruct (exists_ (w_fs w1) (split_f_of _ _ _ _)); cbn [negb snd];
      [|apply Hext; cbn; rewrite <- !app_assoc; eauto].
    destruct (readlines _ _); cbn [snd];
      apply Hext; cbn; rewrite <- !app_assoc; eauto.
Qed.

Lemma init_fields (root year image_set : string) (download : bool)
    (transform : option Transform) (w w' : World) (self : t) :
  __init__ root year image_set download transform w = (Ok self, w') ->
  VOCSegmentation.root self = expanduser root
  /\ VOCSegmentation.year self = (if String.eqb year "2012_aug" then "2012" else year)
  /\ VOCSegmentation.image_set self = image_set
  /\ VOCSegmentation.transform self = transform
  /\ exists d, DATASET_YEAR_DICT !! VOCSegmentation.year self = Some d
               /\ url self = d_url d /\ filename self = d_filename d
               /\ md5 self = d_md5 d.
Proof.
  destruct (DATASET_YEAR_DICT !! table_year year) as [d|] eqn:Hd;
    [|by rewrite init_unknown_year].
  rewrite (init_run _ _ _ _ _ d) by done.
  destruct (download_step download root d w) as [[[]|e] w1]; [|done]. cbv zeta.
  destruct (negb (isdir (w_fs w1) _)); [done|].
  destruct (aug_train year image_set && _); [done|].
  destruct (negb (exists_ (w_fs w1) _)); [done|].
  destruct (readlines _ _); [|done].
  intros [= <- _]. cbn. repeat split. by exists d.
Qed.

(** The attributes of a constructed object: the expanded root, the split
    and the transform as given, and the year under which the table was
    consulted - ['2012'] for ['2012_aug'] - with the URL, file name and
    checksum of that year's descriptor. *)
Theorem init_attributes (root year image_set : string) (download : bool)
    (transform : option Transform) (w w' : World) (self : t) :
  __init__ root year image_set download transform w = (Ok self, w') ->
  VOCSegmentation.root self = expanduser root
  /\ VOCSegmentation.year self = (if String.eqb year "2012_aug" then "2012" else year)
  /\ VOCSegmentation.image_set self = image_set
  /\ VOCSegmentation.transform self = transform
  /\ exists d, DATASET_YEAR_DICT !! VOCSegmentation.year self = Some d
               /\ url self = d_url d /\ filename self = d_filename d
               /\ md5 self = d_md5 d.
Proof. apply init_fields. Qed.

Lemma list_getitem_pure {A} (l : list A) (i : Z) (w : World) :
  exists r, list_getitem l i w = (r, w).
Proof.
  unfold list_getitem. destruct (_ || _)%bool; [by eexists|].
  destruct (l !! _); by eexists.
Qed.

Lemma list_getitem_at {A} (l : list A) (k : nat) (x : A) (w : World) :
  l !! k = Some x -> list_getitem l (Z.of_nat k) w = (Ok x, w).
Proof.
  intros Hx. pose proof (lookup_lt_Some _ _ _ Hx) as Hk. unfold list_getitem.
  destruct (Z.ltb_spec (Z.of_nat k) 0); [lia|].
  destruct (Z.ltb_spec (Z.of_nat k) 0); [lia|].
  destruct (Z.leb_spec (Z.of_nat (length l)) (Z.of_nat k)); [lia|]. cbn [orb].
  by rewrite Nat2Z.id, Hx.
Qed.

(** On an object built by the constructor a negative index [i] of
    [-N, 0) does exactly what the index [N + i] does. *)
Theorem getitem_negative_counts_from_end (root year image_set : string)
    (download : bool) (transform : option Transform) (w0 w1 w : World)
    (self : t) (i : Z) :
  __init__ root year image_set download transform w0 = (Ok self, w1) ->
  (- __len__ self <= i < 0)%Z ->
  __getitem__ self i w = __getitem__ self (i + __len__ self) w.
Proof. apply getitem_negative_run. Qed.

(** [__getitem__] never changes the file system, whatever the object, the
    index and the outcome, and the only calls it makes are at most two
    openings of images. *)
Theorem getitem_only_opens_images (self : t) (index : Z) (w : World) :
  let r := __getitem__ self index w in
  w_fs (snd r) = w_fs w
  /\ exists calls, w_log (snd r) = w_log w ++ calls
                   /\ forallb is_image_open calls = true
                   /\ length calls <= 2.
Proof.
  cbv zeta. unfold __getitem__, mbind, M_bind, bind.
  destruct (list_getitem_pure (images self) index w) as [[p|e] ->].
  2: { split; [reflexivity|]. exists []. cbn. rewrite app_nil_r.
       repeat split; (reflexivity || lia). }
  run_monad.
  destruct (Image_open (w_fs w) p) as [im|]; run_monad.
  2: { split; [reflexivity|]. exists [SysImageOpen p]. cbn.
       repeat split; (reflexivity || lia). }
  destruct (Image_convert im "RGB") as [img|]; run_monad.
  2: { split; [reflexivity|]. exists [SysImageOpen p]. cbn.
       repeat split; (reflexivity || lia). }
  destruct (list_getitem_pure (masks self) index (logged (SysImageOpen p) w))
    as [[q|e] ->].
  2: { split; [reflexivity|]. exists [SysImageOpen p]. cbn.
       repeat split; (reflexivity || lia). }
  run_monad.
  assert (Hend : exists calls,
            (w_log w ++ [SysImageOpen p]) ++ [SysImageOpen q] = w_log w ++ calls
            /\ forallb is_image_open calls = true /\ length calls <= 2).
  { exists [SysImageOpen p; SysImageOpen q]. rewrite <- app_assoc. cbn.
    repeat split; (reflexivity || lia). }
  destruct (Image_open (w_fs w) q) as [target|]; run_monad; [|by split].
  destruct (VOCSegmentation.transform self) as [f|]; run_monad; by split.
Qed.

(** Sample [k] of a constructed object is the image and the mask of one
    and the same manifest line: a successful [__getitem__] has opened the
    image of identifier [k], converted it to RGB, then opened the mask of
    the same identifier, and returns the two, passed through the
    transform when there is one. *)
Theorem getitem_pairs_image_and_mask (root year image_set : string)
    (download : bool) (transform : option Transform) (w0 w1 w w' : World)
    (self : t) (d : Descriptor) (lines : list string) (k : nat) (line : string)
    (img target : Image) :
  __init__ root year image_set download transform w0 = (Ok self, w1) ->
  DATASET_YEAR_DICT !! table_year year = Some d ->
  readlines (w_fs w1) (split_f_of root d year image_set) = Done lines ->
  lines !! k = Some line ->
  __getitem__ self (Z.of_nat k) w = (Ok (img, target), w') ->
  let ipath := join (join (voc_root_of root d) "JPEGImages") (strip line +:+ ".jpg") in
  let mpath := join (mask_dir_of root d year image_set) (strip line +:+ ".png") in
  w_fs w' = w_fs w
  /\ w_log w' = w_log w ++ [SysImageOpen ipath; SysImageOpen mpath]
  /\ exists im img0 target0,
       Image_open (w_fs w) ipath = Done im
       /\ Image_convert im "RGB" = Done img0
       /\ Image_open (w_fs w) mpath = Done target0
       /\ match transform with
          | None => (img, target) = (img0, target0)
          | Some f => f img0 target0 = Done (img, target)
          end.
Proof.
  intros Hinit Hd Hr Hk Hget ipath mpath.
  destruct (init_success _ _ _ _ _ _ _ _ Hinit)
    as (d' & w2 & lines' & Hd' & _ & _ & _ & _ & Hr' & -> & Him & Hma).
  destruct (init_fields _ _ _ _ _ _ _ _ Hinit) as (_ & _ & _ & Htr & _).
  rewrite Hd in Hd'. injection Hd' as <-. cbn [w_fs] in Hr.
  rewrite Hr in Hr'. injection Hr' as <-.
  assert (Hi : images self !! k = Some ipath).
  { rewrite Him, map_map. change (map ?f ?l) with (f <$> l).
    by rewrite list_lookup_fmap, Hk. }
  assert (Hm : masks self !! k = Some mpath).
  { rewrite Hma, map_map. change (map ?f ?l) with (f <$> l).
    by rewrite list_lookup_fmap, Hk. }
  revert Hget. unfold __getitem__, mbind, M_bind, bind.
  rewrite (list_getitem_at _ _ _ _ Hi). run_monad.
  destruct (Image_open (w_fs w) ipath) as [im|] eqn:Ho; [|done]. run_monad.
  destruct (Image_convert im "RGB") as [img0|] eqn:Hc; [|done]. run_monad.
  rewrite (list_getitem_at _ _ _ _ Hm). run_monad.
  destruct (Image_open (w_fs w) mpath) as [target0|] eqn:Hq; [|done]. run_monad.
  rewrite Htr. destruct transform as [f|]; run_monad.
  - destruct (f img0 target0) as [[i' t']|] eqn:Hf; [|done]. cbn [lift].
    intros [= -> -> <-]. cbn. rewrite <- app_assoc.
    split; [reflexivity|]. split; [reflexivity|]. by exists im, img0, target0.
  - intros [= -> -> <-]. cbn. rewrite <- app_assoc.
    split; [reflexivity|]. split; [reflexivity|]. by exists im, img, target.
Qed.

End DatasetUse.

(** ** What the containment check lets through *)

Lemma prefix_empty (s : string) : String.prefix "" s = true.
Proof. by destruct s. Qed.

Lemma prefix_app_same (a b c : string) :
  String.prefix b c = true -> String.prefix (a +:+ b) (a +:+ c) = true.
Proof.
  intros H. induction a as [|x a IH]; [exact H|].
  change (String x a +:+ ?t) with (String x (a +:+ t)). cbn [String.prefix].
  by destruct (ascii_dec x x).
Qed.

Lemma prefix_app_r (a b : string) : String.prefix a (a +:+ b) = true.
Proof.
  induction a as [|x a IH]; [apply prefix_empty|].
  change (String x a +:+ b) with (String x (a +:+ b)). cbn [String.prefix].
  by destruct (ascii_dec x x).
Qed.

Lemma prefix_app_inv (a b : string) :
  String.prefix a b = true -> exists r, b = a +:+ r.
Proof.
  revert b. induction a as [|x a IH]; intros b H; [by exists b|].
  destruct b as [|y b]; [discriminate|]. cbn [String.prefix] in H.
  destruct (ascii_dec x y) as [->|]; [|discriminate].
  destruct (IH b H) as [r ->]. by exists r.
Qed.

Lemma append_empty_r (a : string) : a +:+ "" = a.
Proof.
  induction a as [|x a IH]; [reflexivity|].
  change (String x a +:+ "") with (String x (a +:+ "")). by rewrite IH.
Qed.

Lemma split_nonempty (c : ascii) (s : string) : exists h t, split c s = h :: t.
Proof.
  induction s as [|x s (h & t & IH)]; [by exists "", []|].
  cbn [split]. rewrite IH. destruct (Ascii.eqb x c); eauto.
Qed.

(** Splitting a concatenation: the last component of the first part and
    the first component of the second merge. *)
Lemma split_app (c : ascii) (a r : string) :
  exists pre x y more,
    split c a = pre ++ [x]
    /\ split c r = y :: more
    /\ split c (a +:+ r) = pre ++ [x +:+ y] ++ more.
Proof.
  induction a as [|z a (pre & x & y & more & Ha & Hr & Har)].
  - destruct (split_nonempty c r) as (y & more & Hr).
    by exists [], "", y, more.
  - change (String z a +:+ r) with (String z (a +:+ r)). cbn [split].
    rewrite Ha, Har. destruct (Ascii.eqb z c).
    + by exists ("" :: pre), x, y, more.
    + destruct pre as [|h pre].
      * by exists [], (String z x), y, more.
      * by exists (String z h :: pre), x, y, more.
Qed.

(** Splitting across a separator. *)
Lemma split_app_sep (a b : string) :
  split sep (a +:+ String sep b) = split sep a ++ split sep b.
Proof.
  induction a as [|z a IH]; [reflexivity|].
  change (String z a +:+ ?t) with (String z (a +:+ t)). cbn [split].
  rewrite IH. destruct (Ascii.eqb z sep); [reflexivity|].
  destruct (split_nonempty sep a) as (h & t & ->). reflexivity.
Qed.

Lemma endswith_sep_inv (a : string) :
  endswith a "/" = true -> exists a0, a = a0 +:+ "/".
Proof.
  induction a as [|x a IH]; [discriminate|]. cbn [endswith].
  intros H. apply orb_true_iff in H as [H|H].
  - apply String.eqb_eq in H. injection H as -> ->. by exists "".
  - destruct (IH H) as [a0 ->]. by exists (String x a0).
Qed.

(** Components without [..] are kept or skipped, never popped. *)
Lemma normpath_fold_no_dotdot (n : nat) (acc comps : list string) :
  ".." ∉ comps ->
  foldl (normpath_step n) acc comps
  = acc ++ filter (fun c => c <> "" /\ c <> ".") comps.
Proof.
  revert acc. induction comps as [|c comps IH]; intros acc H.
  - by rewrite app_nil_r.
  - apply not_elem_of_cons in H as [Hc H]. cbn [foldl]. rewrite IH by done.
    unfold normpath_step. rewrite filter_cons.
    destruct (String.eqb_spec c "") as [->|H1]; cbn [orb].
    { by rewrite decide_False by (intros [? ?]; congruence). }
    destruct (String.eqb_spec c ".") as [->|H2]; cbn [orb].
    { by rewrite decide_False by (intros [? ?]; congruence). }
    rewrite decide_True by done.
    destruct (String.eqb_spec c "..") as [->|_]; [done|]. cbn [negb orb].
    by rewrite <- app_assoc.
Qed.

Lemma concat_prefix (l e : list string) :
  String.prefix (String.concat "/" l) (String.concat "/" (l ++ e)) = true.
Proof.
  induction l as [|x l IH]; [apply prefix_empty|].
  destruct l as [|y l].
  - destruct e as [|z e]; cbn; [apply prefix_refl|].
    rewrite <- (append_empty_r x) at 1. by apply prefix_app_same.
  - change (String.concat "/" (x :: y :: l))
      with (x +:+ "/" +:+ String.concat "/" (y :: l)).
    change (String.concat "/" ((x :: y :: l) ++ e))
      with (x +:+ "/" +:+ String.concat "/" ((y :: l) ++ e)).
    by do 2 apply prefix_app_same.
Qed.

(** [normpath] of an absolute path, unfolded. *)
Lemma normpath_absolute (p : string) :
  startswith p "/" = true ->
  normpath p
  = (if startswith p "//" && negb (startswith p "///") then "//" else "/")
    +:+ String.concat "/"
          (foldl (normpath_step
                    (if startswith p "//" && negb (startswith p "///") then 2 else 1))
                 [] (split sep p)).
Proof.
  intros H. unfold normpath. rewrite H.
  destruct p as [|x p]; [discriminate|].
  replace (String.eqb (String x p) "") with false
    by (symmetry; by apply String.eqb_neq).
  by destruct (startswith (String x p) "//" && negb (startswith (String x p) "///")).
Qed.

Lemma startswith_app_nonempty (b x : string) (q : ascii) :
  b <> "" -> startswith (b +:+ x) (String q "") = startswith b (String q "").
Proof.
  intros Hb. destruct b as [|y b]; [done|].
  change (String y b +:+ x) with (String y (b +:+ x)).
  unfold startswith. cbn [String.prefix].
  destruct (ascii_dec q y); [by rewrite !prefix_empty | reflexivity].
Qed.

(** [join] is associative on relative second and third parts. *)
Lemma join_assoc (a b c : string) :
  startswith b "/" = false -> startswith c "/" = false ->
  join a (join b c) = join (join a b) c.
Proof.
  intros Hb Hc.
  destruct (String.eqb_spec b "") as [->|Hne].
  - replace (join "" c) with c by (unfold join; by rewrite Hc).
    unfold join at 3. cbn [startswith String.prefix].
    destruct (String.eqb a "" || endswith a "/") eqn:Ha.
    + by rewrite append_empty_r.
    + unfold join. rewrite Hc, Ha.
      replace (String.eqb (a +:+ "/" +:+ "") "" || endswith (a +:+ "/" +:+ "") "/")
        with true.
      * by rewrite !append_assoc.
      * symmetry. apply orb_true_iff. right. by rewrite endswith_app_sep.
  - assert (Hbc : startswith (join b c) "/" = false).
    { unfold join. rewrite Hc.
      destruct (String.eqb b "" || endswith b "/");
        by rewrite (startswith_app_nonempty b _ "/"%char). }
    assert (Hjb : exists s, join a b = s +:+ b).
    { unfold join. rewrite Hb. destruct (String.eqb a "" || endswith a "/");
        [by exists a | exists (a +:+ "/"); by rewrite append_assoc]. }
    destruct Hjb as [s Hs].
    unfold join at 1. rewrite Hbc. unfold join at 3. rewrite Hc, Hs.
    rewrite endswith_app_sep by done.
    replace (String.eqb (s +:+ b) "") with false
      by (symmetry; apply String.eqb_neq; destruct s; [done | discriminate]).
    rewrite <- Hs. unfold join. rewrite Hb, Hc.
    apply String.eqb_neq in Hne as ->. cbn [orb].
    destruct (String.eqb a "" || endswith a "/"), (endswith b "/");
      by rewrite ?append_assoc.
Qed.

Lemma join_absolute (a b : string) :
  startswith a "/" = true -> startswith b "/" = false ->
  startswith (join a b) "/" = true.
Proof.
  intros Ha Hb. unfold join. rewrite Hb.
  destruct a as [|x a]; [discriminate|].
  destruct (String.eqb (String x a) "" || endswith (String x a) "/");
    change (String x a +:+ ?t) with (String x (a +:+ t));
    unfold startswith in *; cbn [String.prefix] in *;
    destruct (ascii_dec "/" x); (discriminate || apply prefix_empty).
Qed.

Lemma join_relative (b c : string) :
  startswith b "/" = false -> startswith c "/" = false ->
  startswith (join b c) "/" = false.
Proof.
  intros Hb Hc. unfold join. rewrite Hc.
  destruct (String.eqb_spec b "") as [->|Hne]; [exact Hc|]. cbn [orb].
  destruct (endswith b "/"); by rewrite (startswith_app_nonempty b _ "/"%char).
Qed.

Lemma prefix_app_long (q d x : string) :
  String.length q <= String.length d ->
  String.prefix q (d +:+ x) = String.prefix q d.
Proof.
  revert d. induction q as [|c q IH]; intros d H.
  - by rewrite !prefix_empty.
  - destruct d as [|y d]; [cbn in H; lia|].
    change (String y d +:+ x) with (String y (d +:+ x)). cbn [String.prefix].
    destruct (ascii_dec c y); [|reflexivity]. apply IH. cbn in H. lia.
Qed.

Lemma join_extends (a b : string) :
  startswith b "/" = false -> exists x, join a b = a +:+ x.
Proof.
  intros Hb. unfold join. rewrite Hb.
  destruct (String.eqb a "" || endswith a "/"); eauto.
Qed.

(** Joining a relative name to an absolute path keeps the number of
    leading separators that [normpath] looks at. *)
Lemma join_slashes (d name : string) :
  startswith d "/" = true -> startswith name "/" = false ->
  startswith (join d name) "//" = startswith d "//"
  /\ startswith (join d name) "///" = startswith d "///".
Proof.
  intros Hd Hn.
  destruct (join_extends d name Hn) as [x Hx].
  destruct d as [|c1 [|c2 [|c3 d]]]; [discriminate| | |].
  - assert (c1 = "/"%char) as ->.
    { unfold startswith in Hd. cbn [String.prefix] in Hd.
      by destruct (ascii_dec "/" c1). }
    replace (join "/" name) with (String "/" name)
      by (unfold join; by rewrite Hn).
    unfold startswith in *. cbn [String.prefix].
    destruct (ascii_dec "/" "/"); [|done].
    split; [exact Hn|].
    destruct name as [|y name]; [reflexivity|]. cbn [String.prefix] in *.
    destruct (ascii_dec "/" y); [by rewrite prefix_empty in Hn | reflexivity].
  - split; [rewrite Hx; unfold startswith; by apply prefix_app_long|].
    assert (c1 = "/"%char) as ->.
    { unfold startswith in Hd. cbn [String.prefix] in Hd.
      by destruct (ascii_dec "/" c1). }
    destruct (ascii_dec "/" c2) as [<-|Hc2].
    + replace (join "//" name) with (String "/" (String "/" name))
        by (unfold join; by rewrite Hn).
      unfold startswith in *. cbn [String.prefix].
      destruct (ascii_dec "/" "/"); [|done].
      destruct name as [|y name]; [done|]. cbn [String.prefix] in *.
      by destruct (ascii_dec "/" y).
    + rewrite Hx. unfold startswith.
      change (String "/" (String c2 "") +:+ x) with (String "/" (String c2 x)).
      cbn [String.prefix]. destruct (ascii_dec "/" "/"); [|done].
      by destruct (ascii_dec "/" c2).
  - rewrite Hx. unfold startswith.
    split; apply prefix_app_long; cbn; lia.
Qed.

Lemma normpath_step_empty (n : nat) (acc : list string) :
  normpath_step n acc "" = acc.
Proof. reflexivity. Qed.

(** The components [normpath] keeps of an absolute path joined with a
    relative name without [..]: those of the path, then those of the
    name. *)
Lemma normpath_fold_join (n : nat) (d name : string) :
  startswith d "/" = true -> startswith name "/" = false ->
  ".." ∉ split sep name ->
  foldl (normpath_step n) [] (split sep (join d name))
  = foldl (normpath_step n) [] (split sep d)
    ++ filter (fun c => c <> "" /\ c <> ".") (split sep name).
Proof.
  intros Hd Hn Hdd. unfold join. rewrite Hn.
  destruct d as [|y d]; [discriminate|].
  replace (String.eqb (String y d) "") with false
    by (symmetry; by apply String.eqb_neq).
  cbn [orb]. destruct (endswith (String y d) "/") eqn:He.
  - destruct (endswith_sep_inv _ He) as [d0 ->].
    assert (E1 : split sep ((d0 +:+ "/") +:+ name) = split sep d0 ++ split sep name)
      by (rewrite append_assoc; apply (split_app_sep d0 name)).
    assert (E2 : split sep (d0 +:+ "/") = split sep d0 ++ [""])
      by apply (split_app_sep d0 "").
    rewrite E1, E2, !foldl_app. cbn [foldl]. rewrite normpath_step_empty.
    by apply normpath_fold_no_dotdot.
  - assert (E : split sep (String y d +:+ "/" +:+ name)
                = split sep (String y d) ++ split sep name)
      by apply (split_app_sep (String y d) name).
    rewrite E, foldl_app. by apply normpath_fold_no_dotdot.
Qed.

Lemma normpath_join_prefix (d name : string) :
  startswith d "/" = true -> startswith name "/" = false ->
  ".." ∉ split sep name ->
  String.prefix (normpath d) (normpath (join d name)) = true.
Proof.
  intros Hd Hn Hdd.
  rewrite (normpath_absolute d Hd),
          (normpath_absolute (join d name) (join_absolute _ _ Hd Hn)).
  destruct (join_slashes d name Hd Hn) as [-> ->].
  apply prefix_app_same. rewrite normpath_fold_join by done.
  apply concat_prefix.
Qed.

Section HonestArchives.
Context `{P : Platform}.

(** A relative member name without a [..] component always passes the
    check, whatever the destination. *)
Lemma relative_name_within_directory (path name : string) :
  isabs getcwd = true ->
  startswith name "/" = false ->
  ".." ∉ split sep name ->
  is_within_directory path (join path name) = true.
Proof.
  intros Hcwd Hn Hdd. rewrite is_within_directory_prefix. unfold abspath, isabs in *.
  destruct (startswith path "/") eqn:Hp.
  - rewrite (join_absolute _ _ Hp Hn). by apply normpath_join_prefix.
  - rewrite (join_relative _ _ Hp Hn), join_assoc by done.
    apply normpath_join_prefix; try done. by apply join_absolute.
Qed.

(** An archive whose member names are all relative and free of [..]
    components is never refused: [safe_extract] goes on to the one call of
    [extractall]. *)
Theorem safe_extract_accepts_plain_names (tar : tarfile.TarFile) (path : string)
    (members : option (list tarfile.TarInfo)) (numeric_owner : bool) (w : World) :
  isabs getcwd = true ->
  Forall (fun m => startswith (tarfile.name m) "/" = false
                   /\ ".." ∉ split sep (tarfile.name m))
         (tarfile.getmembers tar) ->
  safe_extract tar path members numeric_owner w
  = sys_write (SysExtractAll path) (extractall tar path members numeric_owner) w.
Proof.
  intros Hcwd Hall. rewrite safe_extract_run.
  replace (forallb (member_ok path) (tarfile.getmembers tar)) with true; [done|].
  symmetry. apply forallb_forall. intros m Hm.
  rewrite Forall_forall in Hall. apply list_elem_of_In in Hm.
  destruct (Hall m Hm). by apply relative_name_within_directory.
Qed.

(** A target that passes the check agrees with the directory on every
    component but the last, and the last component of the directory is an
    initial part, character by character, of the target's component at
    that place: no other path gets through. *)
Theorem within_directory_shape (directory target : string) :
  is_within_directory directory target = true ->
  exists pre x y more,
    split sep (abspath getcwd directory) = pre ++ [x]
    /\ split sep (abspath getcwd target) = pre ++ [x +:+ y] ++ more.
Proof.
  rewrite is_within_directory_prefix. intros H.
  destruct (prefix_app_inv _ _ H) as [r ->].
  destruct (split_app sep (abspath getcwd directory) r)
    as (pre & x & y & more & Ha & _ & Har).
  by exists pre, x, y, more.
Qed.

End HonestArchives.

(** ** A hostile archive met during construction *)

Section HostileArchive.
Context `{P : Platform}.
Import VOCSegmentation.

(** When [download] is set and the downloaded archive has a member that
    fails the check, the constructor raises the path-traversal exception
    right after opening the archive: nothing is extracted and no test of
    the dataset directories is made. *)
Theorem init_refuses_hostile_archive (root year image_set : string)
    (transform : option Transform) (d : Descriptor) (w : World)
    (fs1 : FS) (tar : tarfile.TarFile) :
  DATASET_YEAR_DICT !! table_year year = Some d ->
  download_url (d_url d) (expanduser root) (d_filename d) (d_md5 d) (w_fs w)
  = (Done tt, fs1) ->
  tarfile_open fs1 (join (expanduser root) (d_filename d)) = Done tar ->
  forallb (member_ok (expanduser root)) (tarfile.getmembers tar) = false ->
  __init__ root year image_set true transform w
  = (Raise path_traversal,
     mk_World fs1
       (w_log w ++ [SysDownload (d_url d) (expanduser root) (d_filename d) (d_md5 d);
                    SysTarOpen (join (expanduser root) (d_filename d))])).
Proof.
  intros Hd Hdl Ht Hbad. rewrite (init_run _ _ _ _ _ d) by done.
  cbn [download_step]. rewrite download_extract_cases, Hdl. cbv zeta.
  rewrite Ht, Hbad. unfold logged. cbn [w_fs w_log]. by rewrite <- app_assoc.
Qed.

End HostileArchive.

(** ** More concrete runs *)

Section ConcreteUse.
Import VOCSegmentation Demo.

Lemma init_download_comes_first_witness :
  exists rest,
    w_log (snd (@__init__ platform "/data" "2012" "val" true None (world fs_bare)))
    = w_log (world fs_bare)
      ++ SysDownload
           "http://host.robots.ox.ac.uk/pascal/VOC/voc2012/VOCtrainval_11-May-2012.tar"
           "/data" "VOCtrainval_11-May-2012.tar" "6cd6e144f989b92b3379bac3b3de84fd"
         :: rest.
Proof.
  apply (@init_download_comes_first platform "/data" "2012" "val" None
           (mk_Descriptor
              "http://host.robots.ox.ac.uk/pascal/VOC/voc2012/VOCtrainval_11-May-2012.tar"
              "VOCtrainval_11-May-2012.tar" "6cd6e144f989b92b3379bac3b3de84fd"
              "VOCdevkit/VOC2012")
           (world fs_bare)).
  vm_compute. reflexivity.
Defined.

Lemma init_attributes_witness :
  VOCSegmentation.root val_self = "/data"
  /\ VOCSegmentation.year val_self = "2012"
  /\ VOCSegmentation.image_set val_self = "val"
  /\ VOCSegmentation.transform val_self = None
  /\ exists d, DATASET_YEAR_DICT !! VOCSegmentation.year val_self = Some d
               /\ url val_self = d_url d /\ filename val_self = d_filename d
               /\ md5 val_self = d_md5 d.
Proof.
  exact (@init_attributes platform "/data" "2012" "val" false None
           (world fs_val) val_world val_self val_constructed).
Defined.

Lemma getitem_negative_counts_from_end_witness :
  @__getitem__ platform val_self (-1)%Z val_world
  = @__getitem__ platform val_self (-1 + __len__ val_self)%Z val_world.
Proof.
  apply (@getitem_negative_counts_from_end platform "/data" "2012" "val" false None
           (world fs_val) val_world val_world val_self (-1)%Z val_constructed).
  unfold __len__. cbn. lia.
Defined.

Lemma getitem_pairs_image_and_mask_witness :
  w_log (snd (@__getitem__ platform val_self 0%Z val_world))
  = w_log val_world
    ++ [SysImageOpen "/data/VOCdevkit/VOC2012/JPEGImages/2007_000032.jpg";
        SysImageOpen "/data/VOCdevkit/VOC2012/SegmentationClass/2007_000032.png"].
Proof.
  destruct (@getitem_pairs_image_and_mask platform "/data" "2012" "val" false None
              (world fs_val) val_world val_world
              (snd (@__getitem__ platform val_self 0%Z val_world))
              val_self
              (mk_Descriptor
                 "http://host.robots.ox.ac.uk/pascal/VOC/voc2012/VOCtrainval_11-May-2012.tar"
                 "VOCtrainval_11-May-2012.tar" "6cd6e144f989b92b3379bac3b3de84fd"
                 "VOCdevkit/VOC2012")
              ["2007_000032" +:+ String LF ""; " /abs  " +:+ String LF "";
               "2007_000032" +:+ String LF ""]
              0%nat ("2007_000032" +:+ String LF "")
              "/data/VOCdevkit/VOC2012/JPEGImages/2007_000032.jpg"
              "/data/VOCdevkit/VOC2012/SegmentationClass/2007_000032.png"
              val_constructed
              ltac:(vm_compute; reflexivity) ltac:(vm_compute; reflexivity)
              ltac:(reflexivity) ltac:(vm_compute; reflexivity))
    as (_ & Hlog & _).
  exact Hlog.
Defined.

Lemma safe_extract_accepts_plain_names_witness :
  @safe_extract platform
    (tarfile.mk_TarFile [tarfile.mk_TarInfo "VOCdevkit/VOC2012/a.txt";
                         tarfile.mk_TarInfo "./VOCdevkit//b.txt"])
    "/data" None false (world fs_bare)
  = @sys_write platform unit (SysExtractAll "/data")
      (@extractall platform
         (tarfile.mk_TarFile [tarfile.mk_TarInfo "VOCdevkit/VOC2012/a.txt";
                              tarfile.mk_TarInfo "./VOCdevkit//b.txt"])
         "/data" None false)
      (world fs_bare).
Proof.
  apply (@safe_extract_accepts_plain_names platform).
  - reflexivity.
  - repeat constructor; try reflexivity;
      apply (bool_decide_unpack _); vm_compute; exact I.
Defined.

Lemma within_directory_shape_witness :
  exists pre x y more,
    split sep (abspath (@getcwd platform) "/root") = pre ++ [x]
    /\ split sep (abspath (@getcwd platform) "/root-evil/x")
       = pre ++ [x +:+ y] ++ more.
Proof.
  apply (@within_directory_shape platform "/root" "/root-evil/x").
  vm_compute. reflexivity.
Defined.

Lemma init_refuses_hostile_archive_witness :
  @__init__ platform "/data" "2012" "val" true None (world fs_hostile)
  = (Raise path_traversal,
     @mk_World platform fs_hostile
       [SysDownload
          "http://host.robots.ox.ac.uk/pascal/VOC/voc2012/VOCtrainval_11-May-2012.tar"
          "/data" "VOCtrainval_11-May-2012.tar" "6cd6e144f989b92b3379bac3b3de84fd";
        SysTarOpen "/data/VOCtrainval_11-May-2012.tar"]).
Proof.
  apply (@init_refuses_hostile_archive platform "/data" "2012" "val" None
           (mk_Descriptor
              "http://host.robots.ox.ac.uk/pascal/VOC/voc2012/VOCtrainval_11-May-2012.tar"
              "VOCtrainval_11-May-2012.tar" "6cd6e144f989b92b3379bac3b3de84fd"
              "VOCdevkit/VOC2012")
           (world fs_hostile) fs_hostile
           (tarfile.mk_TarFile [tarfile.mk_TarInfo "VOCdevkit/VOC2012/a.txt";
                                tarfile.mk_TarInfo "../../escape.txt"])).
  - vm_compute. reflexivity.
  - reflexivity.
  - reflexivity.
  - vm_compute. reflexivity.
Defined.

End ConcreteUse.
